(** * baxter_control: the joint-state recorder [BaxterToCSV]

    A shallow embedding of [baxter_control/src/baxter_to_csv.cpp].  The
    recorder is a C++ object whose methods run as callbacks of a
    single-threaded ROS node; every method is embedded as a computation
    in a state monad over the recorder's members and the part of the node
    it talks to (subscriptions, timers, files, the log).  Indexing a
    [std::vector] out of range is undefined behaviour in C++; the monad
    has a separate outcome for it.

    Conventions: [ros::Time] and [ros::Duration] are whole numbers of
    nanoseconds without the 32-bit range of roscpp; [ros::Time::now()] is
    an argument of the callback that reads it; which file a name opens
    for writing, if any, is a parameter; a timer whose last handle is
    overwritten is stopped, as its destructor does in roscpp. *)

From Stdlib Require Import Ascii String.
From stdpp Require Import base option list strings pretty gmap.

Open Scope Z_scope.
Open Scope string_scope.

(** ** Outcomes of a method call *)

Inductive Result (A : Type) : Type :=
| Ok (a : A)
| Undefined.
Arguments Ok {A} a.
Arguments Undefined {A}.

(** ** ROS vocabulary that does not depend on the number type *)

(** [ros::Time] and [ros::Duration], as a count of nanoseconds. *)
Abbreviation Time := Z (only parsing).
Abbreviation Duration := Z (only parsing).

(** The member functions that are handed to the node as callbacks. *)
Inductive Callback : Type :=
| CbStateCallback
| CbCmdPositionCallback
| CbCmdVelocityCallback
| CbUpdate.

Global Instance Callback_eq_dec : EqDecision Callback.
Proof. solve_decision. Defined.

(** What [nh_.subscribe<T>(topic, queue_size, callback, this)] registers. *)
Record Subscription : Type := mkSubscription {
  topic : string;
  queue_size : nat;
  sub_callback : Callback
}.

(** What [nh_.createTimer(period, callback, this)] registers. *)
Record Timer : Type := mkTimer {
  period : Duration;
  timer_callback : Callback;
  started : bool
}.

Inductive LogLevel : Type := INFO | WARN | ERROR.

Record LogEntry : Type := mkLogEntry {
  level : LogLevel;
  logger : string;
  text : string
}.

(** [ros::TimerEvent]: the fields [update] reads. *)
Record TimerEvent : Type := mkTimerEvent {
  last_real : Time;
  current_real : Time
}.

(** The node as the recorder sees it.  [files] holds the content of
    every file, keyed by what its names resolve to (see [resolve]
    below). *)
Record Ros : Type := mkRos {
  subscriptions : list Subscription;
  timers : list Timer;
  files : gmap string string;
  rosout : list LogEntry
}.

Definition stop_timer (h : option nat) (ts : list Timer) : list Timer :=
  match h with
  | Some i =>
      match ts !! i with
      | Some t => <[i := mkTimer (period t) (timer_callback t) false]> ts
      | None => ts
      end
  | None => ts
  end.

Definition timer_started (h : option nat) (ts : list Timer) : bool :=
  match h with
  | Some i => match ts !! i with Some t => started t | None => false end
  | None => false
  end.

(** ** The number type and the constants of the header

    [double], the operations the recorder applies to it and the two
    constants declared in [baxter_to_csv.h] are parameters of the
    development: floating-point arithmetic and its text form are not
    modelled. *)
Class Float64 : Type := {
  double : Type;
  d_one : double;                          (* the literal [1.0] *)
  d_sub : double → double → double;
  d_div : double → double → double;
  show : double → string;                  (* [ostream << double] *)
  toSec : Time → double;                   (* [ros::Time::toSec] *)
  fromSec : double → Duration              (* [ros::Duration(double)] *)
}.

Class Constants `{Float64} : Type := {
  RECORD_RATE_HZ : double;
  STATE_EXPIRED_TIMEOUT : double
}.

(** ** Opening files

    [resolve name] is the file that [std::ofstream::open(name)] opens for
    writing, or [None] when the open fails (an empty name, a directory
    that does not exist, no permission).  Different names may resolve to
    one file.  The files of the node are keyed by what names resolve
    to. *)
Class Filesystem : Type := {
  resolve : string → option string
}.

Section Recorder.

(** The members and methods below depend on the number type and on the
    two constants through the classes [Float64] and [Constants]. *)
Context `{F : Float64} `{K : !Constants} `{P : Filesystem}.

(** *** Messages *)

Record Header : Type := mkHeader {
  stamp : Time;
  frame_id : string
}.

(** [sensor_msgs::JointState] *)
Record JointState : Type := mkJointState {
  header : Header;
  name : list string;
  position : list double;
  velocity : list double;
  effort : list double
}.

(** [baxter_msgs::JointPositions] *)
Record JointPositions : Type := mkJointPositions {
  jp_names : list string;
  angles : list double
}.

(** [baxter_msgs::JointVelocities] *)
Record JointVelocities : Type := mkJointVelocities {
  jv_names : list string;
  velocities : list double
}.

Definition JointState_default : JointState :=
  mkJointState (mkHeader 0 "") [] [] [] [].
Definition JointPositions_default : JointPositions := mkJointPositions [] [].
Definition JointVelocities_default : JointVelocities := mkJointVelocities [] [].

(** *** The members of [BaxterToCSV] *)

Record Recorder : Type := mkRecorder {
  arm_name_ : string;
  joint_name_ : string;
  current_state_count_ : Z;
  command_index_ : Z;
  first_update_ : bool;
  position_cmd_mode_ : bool;
  sub_joint_state_ : option Subscription;
  sub_command_ : option Subscription;
  state_msg_ : JointState;
  state_msg_timestamp_ : Time;
  cmd_position_msg_ : JointPositions;
  cmd_velocity_msg_ : JointVelocities;
  file_name_ : string;
  joint_states_ : list JointState;
  joint_commands_ : list double;
  cmd_position_msgs_ : list JointPositions;
  cmd_velocity_msgs_ : list JointVelocities;
  non_realtime_loop_ : option nat               (* handle into [timers] *)
}.

Record World : Type := mkWorld {
  this : Recorder;
  ros : Ros
}.

(** Assignments to single members. *)
Definition set_first_update_ (v : bool) (r : Recorder) : Recorder :=
  mkRecorder (arm_name_ r) (joint_name_ r) (current_state_count_ r) (command_index_ r)
    v (position_cmd_mode_ r) (sub_joint_state_ r) (sub_command_ r)
    (state_msg_ r) (state_msg_timestamp_ r) (cmd_position_msg_ r) (cmd_velocity_msg_ r)
    (file_name_ r) (joint_states_ r) (joint_commands_ r)
    (cmd_position_msgs_ r) (cmd_velocity_msgs_ r) (non_realtime_loop_ r).
Definition set_sub_joint_state_ (v : option Subscription) (r : Recorder) : Recorder :=
  mkRecorder (arm_name_ r) (joint_name_ r) (current_state_count_ r) (command_index_ r)
    (first_update_ r) (position_cmd_mode_ r) v (sub_command_ r)
    (state_msg_ r) (state_msg_timestamp_ r) (cmd_position_msg_ r) (cmd_velocity_msg_ r)
    (file_name_ r) (joint_states_ r) (joint_commands_ r)
    (cmd_position_msgs_ r) (cmd_velocity_msgs_ r) (non_realtime_loop_ r).
Definition set_sub_command_ (v : option Subscription) (r : Recorder) : Recorder :=
  mkRecorder (arm_name_ r) (joint_name_ r) (current_state_count_ r) (command_index_ r)
    (first_update_ r) (position_cmd_mode_ r) (sub_joint_state_ r) v
    (state_msg_ r) (state_msg_timestamp_ r) (cmd_position_msg_ r) (cmd_velocity_msg_ r)
    (file_name_ r) (joint_states_ r) (joint_commands_ r)
    (cmd_position_msgs_ r) (cmd_velocity_msgs_ r) (non_realtime_loop_ r).
Definition set_state_msg_ (v : JointState) (r : Recorder) : Recorder :=
  mkRecorder (arm_name_ r) (joint_name_ r) (current_state_count_ r) (command_index_ r)
    (first_update_ r) (position_cmd_mode_ r) (sub_joint_state_ r) (sub_command_ r)
    v (state_msg_timestamp_ r) (cmd_position_msg_ r) (cmd_velocity_msg_ r)
    (file_name_ r) (joint_states_ r) (joint_commands_ r)
    (cmd_position_msgs_ r) (cmd_velocity_msgs_ r) (non_realtime_loop_ r).
Definition set_state_msg_timestamp_ (v : Time) (r : Recorder) : Recorder :=
  mkRecorder (arm_name_ r) (joint_name_ r) (current_state_count_ r) (command_index_ r)
    (first_update_ r) (position_cmd_mode_ r) (sub_joint_state_ r) (sub_command_ r)
    (state_msg_ r) v (cmd_position_msg_ r) (cmd_velocity_msg_ r)
    (file_name_ r) (joint_states_ r) (joint_commands_ r)
    (cmd_position_msgs_ r) (cmd_velocity_msgs_ r) (non_realtime_loop_ r).
Definition set_cmd_position_msg_ (v : JointPositions) (r : Recorder) : Recorder :=
  mkRecorder (arm_name_ r) (joint_name_ r) (current_state_count_ r) (command_index_ r)
    (first_update_ r) (position_cmd_mode_ r) (sub_joint_state_ r) (sub_command_ r)
    (state_msg_ r) (state_msg_timestamp_ r) v (cmd_velocity_msg_ r)
    (file_name_ r) (joint_states_ r) (joint_commands_ r)
    (cmd_position_msgs_ r) (cmd_velocity_msgs_ r) (non_realtime_loop_ r).
Definition set_cmd_velocity_msg_ (v : JointVelocities) (r : Recorder) : Recorder :=
  mkRecorder (arm_name_ r) (joint_name_ r) (current_state_count_ r) (command_index_ r)
    (first_update_ r) (position_cmd_mode_ r) (sub_joint_state_ r) (sub_command_ r)
    (state_msg_ r) (state_msg_timestamp_ r) (cmd_position_msg_ r) v
    (file_name_ r) (joint_states_ r) (joint_commands_ r)
    (cmd_position_msgs_ r) (cmd_velocity_msgs_ r) (non_realtime_loop_ r).
Definition set_file_name_ (v : string) (r : Recorder) : Recorder :=
  mkRecorder (arm_name_ r) (joint_name_ r) (current_state_count_ r) (command_index_ r)
    (first_update_ r) (position_cmd_mode_ r) (sub_joint_state_ r) (sub_command_ r)
    (state_msg_ r) (state_msg_timestamp_ r) (cmd_position_msg_ r) (cmd_velocity_msg_ r)
    v (joint_states_ r) (joint_commands_ r)
    (cmd_position_msgs_ r) (cmd_velocity_msgs_ r) (non_realtime_loop_ r).
Definition set_joint_states_ (v : list JointState) (r : Recorder) : Recorder :=
  mkRecorder (arm_name_ r) (joint_name_ r) (current_state_count_ r) (command_index_ r)
    (first_update_ r) (position_cmd_mode_ r) (sub_joint_state_ r) (sub_command_ r)
    (state_msg_ r) (state_msg_timestamp_ r) (cmd_position_msg_ r) (cmd_velocity_msg_ r)
    (file_name_ r) v (joint_commands_ r)
    (cmd_position_msgs_ r) (cmd_velocity_msgs_ r) (non_realtime_loop_ r).
Definition set_joint_commands_ (v : list double) (r : Recorder) : Recorder :=
  mkRecorder (arm_name_ r) (joint_name_ r) (current_state_count_ r) (command_index_ r)
    (first_update_ r) (position_cmd_mode_ r) (sub_joint_state_ r) (sub_command_ r)
    (state_msg_ r) (state_msg_timestamp_ r) (cmd_position_msg_ r) (cmd_velocity_msg_ r)
    (file_name_ r) (joint_states_ r) v
    (cmd_position_msgs_ r) (cmd_velocity_msgs_ r) (non_realtime_loop_ r).
Definition set_cmd_position_msgs_ (v : list JointPositions) (r : Recorder) : Recorder :=
  mkRecorder (arm_name_ r) (joint_name_ r) (current_state_count_ r) (command_index_ r)
    (first_update_ r) (position_cmd_mode_ r) (sub_joint_state_ r) (sub_command_ r)
    (state_msg_ r) (state_msg_timestamp_ r) (cmd_position_msg_ r) (cmd_velocity_msg_ r)
    (file_name_ r) (joint_states_ r) (joint_commands_ r)
    v (cmd_velocity_msgs_ r) (non_realtime_loop_ r).
Definition set_cmd_velocity_msgs_ (v : list JointVelocities) (r : Recorder) : Recorder :=
  mkRecorder (arm_name_ r) (joint_name_ r) (current_state_count_ r) (command_index_ r)
    (first_update_ r) (position_cmd_mode_ r) (sub_joint_state_ r) (sub_command_ r)
    (state_msg_ r) (state_msg_timestamp_ r) (cmd_position_msg_ r) (cmd_velocity_msg_ r)
    (file_name_ r) (joint_states_ r) (joint_commands_ r)
    (cmd_position_msgs_ r) v (non_realtime_loop_ r).
Definition set_non_realtime_loop_ (v : option nat) (r : Recorder) : Recorder :=
  mkRecorder (arm_name_ r) (joint_name_ r) (current_state_count_ r) (command_index_ r)
    (first_update_ r) (position_cmd_mode_ r) (sub_joint_state_ r) (sub_command_ r)
    (state_msg_ r) (state_msg_timestamp_ r) (cmd_position_msg_ r) (cmd_velocity_msg_ r)
    (file_name_ r) (joint_states_ r) (joint_commands_ r)
    (cmd_position_msgs_ r) (cmd_velocity_msgs_ r) v.

(** *** The monad of method bodies *)

Definition M (A : Type) : Type := World → Result (A * World).

#[global] Instance M_ret : MRet M := λ A a w, Ok (a, w).
#[global] Instance M_bind : MBind M := λ A B f m w,
  match m w with
  | Ok (a, w') => f a w'
  | Undefined => Undefined
  end.

(** Read a member. *)
Definition member {A : Type} (f : Recorder → A) : M A :=
  λ w, Ok (f (this w), w).
(** Assign to a member. *)
Definition assign (f : Recorder → Recorder) : M unit :=
  λ w, Ok (tt, mkWorld (f (this w)) (ros w)).
(** Read and change the node. *)
Definition node {A : Type} (f : Ros → A) : M A :=
  λ w, Ok (f (ros w), w).
Definition node_do (f : Ros → Ros) : M unit :=
  λ w, Ok (tt, mkWorld (this w) (f (ros w))).
(** [v[i]] on a [std::vector]: undefined out of range. *)
Definition at_ {A : Type} (v : list A) (i : nat) : M A :=
  λ w, match v !! i with Some x => Ok (x, w) | None => Undefined end.

(** [for (std::size_t j = 0; j < n; ++j) body] *)
Fixpoint for_ (idx : list nat) (body : nat → M unit) : M unit :=
  match idx with
  | [] => mret tt
  | j :: rest => body j ;; for_ rest body
  end.
Definition for_range (n : nat) (body : nat → M unit) : M unit :=
  for_ (seq 0 n) body.

(** *** What the recorder asks of the node *)

Inductive Incoming : Type :=
| InJointState (m : JointState)
| InJointPositions (m : JointPositions)
| InJointVelocities (m : JointVelocities).

(** [ROS_*_STREAM_NAMED(logger, text)].  The numbers streamed into a log
    line and the throttling of the [_THROTTLE] variants are left out. *)
Definition logged (l : LogLevel) (lg txt : string) (n : Ros) : Ros :=
  mkRos (subscriptions n) (timers n) (files n)
        (rosout n ++ [mkLogEntry l lg txt]).
Definition log (l : LogLevel) (lg txt : string) : M unit :=
  node_do (logged l lg txt).

(** [nh_.subscribe<T>(topic, queue_size, callback, this)] *)
Definition subscribe (tp : string) (q : nat) (cb : Callback) : M Subscription :=
  node_do (λ n, mkRos (subscriptions n ++ [mkSubscription tp q cb])
                      (timers n) (files n) (rosout n)) ;;
  mret (mkSubscription tp q cb).

(** [nh_.createTimer(period, callback, this)]: the new timer is started;
    its handle is its place in the node's table. *)
Definition createTimer (p : Duration) (cb : Callback) : M nat :=
  h ← node (λ n, length (timers n)) ;
  node_do (λ n, mkRos (subscriptions n) (timers n ++ [mkTimer p cb true])
                      (files n) (rosout n)) ;;
  mret h.

(** [non_realtime_loop_ = t]: the handle held before is released, which
    stops the timer it referred to. *)
Definition stopped (h : option nat) (n : Ros) : Ros :=
  mkRos (subscriptions n) (stop_timer h (timers n)) (files n) (rosout n).
Definition assign_non_realtime_loop_ (t : nat) : M unit :=
  old ← member non_realtime_loop_ ;
  node_do (stopped old) ;;
  assign (set_non_realtime_loop_ (Some t)).

(** [non_realtime_loop_.stop()] *)
Definition non_realtime_loop_stop : M unit :=
  h ← member non_realtime_loop_ ;
  node_do (stopped h).

(** [std::ofstream]: [open] creates or truncates the file the name
    resolves to and leaves the stream open on it, or fails and leaves
    the stream closed; [<<] appends to the file of an open stream and
    does nothing on a closed one.  The source never tests the stream. *)
Definition put_file (h : option string) (s : string) (n : Ros) : Ros :=
  match h with
  | Some k =>
      mkRos (subscriptions n) (timers n)
            (alter (λ c, c +:+ s) k (files n)) (rosout n)
  | None => n
  end.
Definition ofs_open (fn : string) : M (option string) :=
  match resolve fn with
  | Some k =>
      node_do (λ n, mkRos (subscriptions n) (timers n)
                          (<[k := ""]> (files n)) (rosout n)) ;;
      mret (Some k)
  | None => mret None
  end.
Definition ofs_put (h : option string) (s : string) : M unit :=
  node_do (put_file h s).
Definition endl : string := String "010"%char EmptyString.

(** *** The methods, in the order of the source *)

Definition joint_states_at (i : nat) : M JointState :=
  v ← member joint_states_ ; at_ v i.
Definition cmd_position_msgs_at (i : nat) : M JointPositions :=
  v ← member cmd_position_msgs_ ; at_ v i.
Definition cmd_velocity_msgs_at (i : nat) : M JointVelocities :=
  v ← member cmd_velocity_msgs_ ; at_ v i.

Definition stateCallback (now : Time) (msg : JointState) : M unit :=
  assign (set_state_msg_ msg) ;;
  assign (set_state_msg_timestamp_ now).

Definition cmdPositionCallback (msg : JointPositions) : M unit :=
  assign (set_cmd_position_msg_ msg).

Definition cmdVelocityCallback (msg : JointVelocities) : M unit :=
  assign (set_cmd_velocity_msg_ msg).

Definition stateExpired (now : Time) : M bool :=
  ts ← member state_msg_timestamp_ ;
  if (now >? ts + fromSec STATE_EXPIRED_TIMEOUT)%Z then
    arm ← member arm_name_ ;
    log WARN arm "State expired. Last recieved state " ;;
    mret true
  else mret false.

Definition writeToFile (file_name : string) : M bool :=
  v ← member joint_states_ ;
  if (length v =? 0)%nat then
    log ERROR "baxter_to_csv" "No joint states populated" ;;
    mret false
  else
    output_file ← ofs_open file_name ;
    (* header *)
    ofs_put output_file "timestamp," ;;
    first ← joint_states_at 0 ;
    for_range (length (position first)) (λ j,
      s0 ← joint_states_at 0 ;
      nm ← at_ (name s0) j ;
      ofs_put output_file (nm +:+ "_pos,") ;;
      ofs_put output_file (nm +:+ "_vel,") ;;
      ofs_put output_file (nm +:+ "_eff,") ;;
      mode ← member position_cmd_mode_ ;
      if mode : bool then ofs_put output_file (nm +:+ "_pos_cmd,")
      else ofs_put output_file (nm +:+ "_vel_cmd,")) ;;
    ofs_put output_file endl ;;
    (* data *)
    s0 ← joint_states_at 0 ;
    let start_time := toSec (stamp (header s0)) in
    n ← member (λ r, length (joint_states_ r)) ;
    for_range n (λ i,
      si ← joint_states_at i ;
      ofs_put output_file (show (d_sub (toSec (stamp (header si))) start_time)) ;;
      ofs_put output_file "," ;;
      for_range (length (position si)) (λ j,
        p ← at_ (position si) j ;
        ofs_put output_file (show p) ;; ofs_put output_file "," ;;
        vl ← at_ (velocity si) j ;
        ofs_put output_file (show vl) ;; ofs_put output_file "," ;;
        e ← at_ (effort si) j ;
        ofs_put output_file (show e) ;; ofs_put output_file "," ;;
        mode ← member position_cmd_mode_ ;
        if mode : bool then
          c ← cmd_position_msgs_at i ;
          a ← at_ (angles c) j ;
          ofs_put output_file (show a) ;; ofs_put output_file ","
        else
          c ← cmd_velocity_msgs_at i ;
          a ← at_ (velocities c) j ;
          ofs_put output_file (show a) ;; ofs_put output_file ",") ;;
      ofs_put output_file endl) ;;
    log INFO "baxter_to_csv" ("Wrote to file " +:+ file_name) ;;
    mret true.

Definition startRecording (file_name : string) : M unit :=
  assign (set_file_name_ file_name) ;;
  assign (set_joint_states_ []) ;;
  assign (set_joint_commands_ []) ;;
  assign (set_cmd_position_msgs_ []) ;;
  assign (set_cmd_velocity_msgs_ []) ;;
  let update_freq := fromSec (d_div d_one RECORD_RATE_HZ) in
  t ← createTimer update_freq CbUpdate ;
  assign_non_realtime_loop_ t.

Definition stopRecording : M unit :=
  non_realtime_loop_stop ;;
  fn ← member file_name_ ;
  writeToFile fn ;;
  mret tt.

Definition update (now : Time) (e : TimerEvent) : M unit :=
  fu ← member first_update_ ;
  (if fu : bool then assign (set_first_update_ false)
   else log INFO "update" "Updating with period: ") ;;
  expired ← stateExpired now ;
  (if expired : bool then
     log ERROR "update" "Aborting early" ;;
     stopRecording
   else mret tt) ;;
  st ← member state_msg_ ;
  assign (λ r, set_joint_states_ (joint_states_ r ++ [st]) r) ;;
  mode ← member position_cmd_mode_ ;
  if mode : bool then
    c ← member cmd_position_msg_ ;
    assign (λ r, set_cmd_position_msgs_ (cmd_position_msgs_ r ++ [c]) r)
  else
    c ← member cmd_velocity_msg_ ;
    assign (λ r, set_cmd_velocity_msgs_ (cmd_velocity_msgs_ r ++ [c]) r).

(** *** The node's dispatch *)

Definition subscribed (cb : Callback) : M bool :=
  node (λ n, bool_decide (cb ∈ sub_callback <$> subscriptions n)).

(** A message is handed to the callback of its subscription, if the node
    holds that subscription; the callback reads the clock at [now]. *)
Definition deliver (now : Time) (msg : Incoming) : M unit :=
  match msg with
  | InJointState m =>
      b ← subscribed CbStateCallback ;
      if b : bool then stateCallback now m else mret tt
  | InJointPositions m =>
      b ← subscribed CbCmdPositionCallback ;
      if b : bool then cmdPositionCallback m else mret tt
  | InJointVelocities m =>
      b ← subscribed CbCmdVelocityCallback ;
      if b : bool then cmdVelocityCallback m else mret tt
  end.

(** One pass of the constructor's waiting loop as the node answers it:
    the value of [ros::ok()] and the messages [ros::spinOnce()] hands
    over, each with the time at which its callback runs. *)
Record SpinRound : Type := mkSpinRound {
  ros_ok : bool;
  queued : list (Time * Incoming)
}.

Fixpoint spinOnce (q : list (Time * Incoming)) : M unit :=
  match q with
  | [] => mret tt
  | (now, msg) :: rest => deliver now msg ;; spinOnce rest
  end.

(** [while (ros::ok() && state_msg_timestamp_.toSec() == 0) { ... }].
    The loop runs against the answers of the node; the result tells
    whether the loop was left before the answers ran out. *)
Fixpoint wait_first_state (script : list SpinRound) : M bool :=
  ts ← member state_msg_timestamp_ ;
  if (ts =? 0)%Z then
    match script with
    | [] => mret false
    | r :: rest =>
        if ros_ok r then
          arm ← member arm_name_ ;
          log INFO arm "Waiting for first state message to be recieved" ;;
          spinOnce (queued r) ;;
          wait_first_state rest
        else mret true
    end
  else mret true.

Definition BaxterToCSV_members (position_cmd_mode : bool) : Recorder :=
  mkRecorder "left" "w1" 0 0 false position_cmd_mode None None
    JointState_default 0 JointPositions_default JointVelocities_default
    "" [] [] [] [] None.

Definition BaxterToCSV_body (script : list SpinRound) : M bool :=
  arm ← member arm_name_ ;
  s ← subscribe ("/robot/limb/" +:+ arm +:+ "/joint_states") 1 CbStateCallback ;
  assign (set_sub_joint_state_ (Some s)) ;;
  mode ← member position_cmd_mode_ ;
  (if mode : bool then
     s ← subscribe ("/robot/limb/" +:+ arm +:+ "/command_joint_angles") 1
                   CbCmdPositionCallback ;
     assign (set_sub_command_ (Some s))
   else
     s ← subscribe ("/robot/limb/" +:+ arm +:+ "/command_joint_velocities") 1
                   CbCmdVelocityCallback ;
     assign (set_sub_command_ (Some s))) ;;
  wait_first_state script.

(** The constructor, run on a node [n]. *)
Definition BaxterToCSV (position_cmd_mode : bool) (script : list SpinRound)
    (n : Ros) : Result (bool * World) :=
  BaxterToCSV_body script (mkWorld (BaxterToCSV_members position_cmd_mode) n).

(** *** Runs of the recorder after construction *)

Inductive Event : Type :=
| Message (now : Time) (msg : Incoming)
| TimerFired (now : Time) (e : TimerEvent)
| StartRecording (file_name : string)
| StopRecording.

(** A timer calls back only while it is started. *)
Definition step (ev : Event) : M unit :=
  match ev with
  | Message now msg => deliver now msg
  | TimerFired now e =>
      h ← member non_realtime_loop_ ;
      on ← node (λ n, timer_started h (timers n)) ;
      if on : bool then update now e else mret tt
  | StartRecording fn => startRecording fn
  | StopRecording => stopRecording
  end.

Fixpoint run (evs : list Event) : M unit :=
  match evs with
  | [] => mret tt
  | ev :: rest => step ev ;; run rest
  end.

(** *** The table [writeToFile] is to produce, in the words of the
    specification *)

Fixpoint cat (l : list string) : string :=
  match l with
  | [] => ""
  | x :: rest => x +:+ cat rest
  end.

#[global] Instance double_inhabited : Inhabited double := populate d_one.
#[global] Instance JointState_inhabited : Inhabited JointState :=
  populate JointState_default.

(** The command values buffered for the mode the recorder is in:
    [angles] in position mode, [velocities] in velocity mode. *)
Definition active_cmds (r : Recorder) : list (list double) :=
  if position_cmd_mode_ r then angles <$> cmd_position_msgs_ r
  else velocities <$> cmd_velocity_msgs_ r.

(** The four columns of joint [nm] in the header. *)
Definition joint_columns (mode : bool) (nm : string) : list string :=
  [nm +:+ "_pos"; nm +:+ "_vel"; nm +:+ "_eff";
   nm +:+ (if mode then "_pos_cmd" else "_vel_cmd")].

Definition header_fields (mode : bool) (s0 : JointState) : list string :=
  "timestamp" ::
  flat_map (λ j, joint_columns mode (name s0 !!! j))
           (seq 0 (length (position s0))).

(** The four values of joint [j] in the row of sample [si]. *)
Definition joint_values (si : JointState) (cmd : list double) (j : nat)
    : list string :=
  [show (position si !!! j); show (velocity si !!! j);
   show (effort si !!! j); show (cmd !!! j)].

Definition data_fields (s0 si : JointState) (cmd : list double) : list string :=
  show (d_sub (toSec (stamp (header si))) (toSec (stamp (header s0)))) ::
  flat_map (joint_values si cmd) (seq 0 (length (position si))).

(** A line: every field is followed by the delimiter, then the line ends. *)
Definition csv_line (fields : list string) : string :=
  cat ((λ f, f +:+ ",") <$> fields) +:+ endl.

Definition csv_lines (r : Recorder) : list (list string) :=
  match joint_states_ r with
  | [] => []
  | s0 :: _ =>
      header_fields (position_cmd_mode_ r) s0 ::
      imap (λ i si, data_fields s0 si (active_cmds r !!! i)) (joint_states_ r)
  end.

Definition csv_table (r : Recorder) : string := cat (csv_line <$> csv_lines r).

(** *** Conditions on the buffers *)

(** Every state sample has a command sample at the same index. *)
Definition paired (r : Recorder) : Prop :=
  length (joint_states_ r) = length (active_cmds r).

(** The arrays indexed by [writeToFile] are as long as the loop bound
    they are indexed under. *)
Definition header_in_bounds (r : Recorder) : bool :=
  match joint_states_ r with
  | [] => true
  | s0 :: _ => (length (position s0) <=? length (name s0))%nat
  end.

Definition row_in_bounds (si : JointState) (cmd : list double) : bool :=
  (length (position si) <=? length (velocity si))%nat &&
  (length (position si) <=? length (effort si))%nat &&
  (length (position si) <=? length cmd)%nat.

Definition in_bounds (r : Recorder) : bool :=
  header_in_bounds r &&
  forallb (λ sc, row_in_bounds sc.1 sc.2) (zip (joint_states_ r) (active_cmds r)).

(** The precondition as the specification words it: the bound on the
    array of names is asked of every sample. *)
Definition stated_precondition (r : Recorder) : Prop :=
  ∀ i si, joint_states_ r !! i = Some si →
    (length (position si) ≤ length (name si))%nat ∧
    (length (position si) ≤ length (velocity si))%nat ∧
    (length (position si) ≤ length (effort si))%nat ∧
    ∃ cmd, active_cmds r !! i = Some cmd ∧
           (length (position si) ≤ length cmd)%nat.

(** *** The text [writeToFile] streams, as a function of the buffers

    [None] when an index leaves its array. *)

Definition rendered_header_cell (r : Recorder) (s0 : JointState) (j : nat)
    : option string :=
  nm ← name s0 !! j ;
  Some (nm +:+ "_pos," +:+ nm +:+ "_vel," +:+ nm +:+ "_eff," +:+
        nm +:+ (if position_cmd_mode_ r then "_pos_cmd," else "_vel_cmd,")).

Definition rendered_cmd (r : Recorder) (i j : nat) : option double :=
  if position_cmd_mode_ r then c ← cmd_position_msgs_ r !! i ; angles c !! j
  else c ← cmd_velocity_msgs_ r !! i ; velocities c !! j.

Definition rendered_cell (r : Recorder) (i : nat) (si : JointState) (j : nat)
    : option string :=
  p ← position si !! j ;
  vl ← velocity si !! j ;
  e ← effort si !! j ;
  a ← rendered_cmd r i j ;
  Some (show p +:+ "," +:+ show vl +:+ "," +:+ show e +:+ "," +:+
        show a +:+ ",").

Definition rendered_row (r : Recorder) (s0 : JointState) (i : nat)
    : option string :=
  si ← joint_states_ r !! i ;
  cells ← mapM (rendered_cell r i si) (seq 0 (length (position si))) ;
  Some (show (d_sub (toSec (stamp (header si))) (toSec (stamp (header s0)))) +:+
        "," +:+ cat cells +:+ endl).

Definition rendered (r : Recorder) : option string :=
  s0 ← joint_states_ r !! 0%nat ;
  hs ← mapM (rendered_header_cell r s0) (seq 0 (length (position s0))) ;
  rows ← mapM (rendered_row r s0) (seq 0 (length (joint_states_ r))) ;
  Some ("timestamp," +:+ cat hs +:+ endl +:+ cat rows).

(** The node after [writeToFile] has streamed [txt] to the stream opened
    on [fn]: the file [fn] resolves to holds [txt]; if the open failed
    the files are as before. *)
Definition stored (fn txt : string) (fs : gmap string string)
    : gmap string string :=
  match resolve fn with
  | Some k => <[k := txt]> fs
  | None => fs
  end.
Definition written (fn txt : string) (n : Ros) : Ros :=
  mkRos (subscriptions n) (timers n) (stored fn txt (files n))
        (rosout n ++ [mkLogEntry INFO "baxter_to_csv" ("Wrote to file " +:+ fn)]).

(** The members after the three [push_back]s of [update]. *)
Definition push_sample (r : Recorder) : Recorder :=
  let r1 := set_joint_states_ (joint_states_ r ++ [state_msg_ r]) r in
  if position_cmd_mode_ r1
  then set_cmd_position_msgs_ (cmd_position_msgs_ r1 ++ [cmd_position_msg_ r1]) r1
  else set_cmd_velocity_msgs_ (cmd_velocity_msgs_ r1 ++ [cmd_velocity_msg_ r1]) r1.

(** The members after the assignments of [startRecording]. *)
Definition reset_buffers (fn : string) (h : nat) (r : Recorder) : Recorder :=
  set_non_realtime_loop_ (Some h)
    (set_cmd_velocity_msgs_ []
       (set_cmd_position_msgs_ []
          (set_joint_commands_ []
             (set_joint_states_ [] (set_file_name_ fn r))))).

(** *** Relations between states *)

(** The recording (buffers, file name, mode, timer handle) and the
    node's subscriptions, timers and files are the same in [w] and [w']:
    what the message callbacks and the log leave alone. *)
Definition same_recording (w w' : World) : Prop :=
  subscriptions (ros w') = subscriptions (ros w) ∧
  timers (ros w') = timers (ros w) ∧
  files (ros w') = files (ros w) ∧
  joint_states_ (this w') = joint_states_ (this w) ∧
  joint_commands_ (this w') = joint_commands_ (this w) ∧
  cmd_position_msgs_ (this w') = cmd_position_msgs_ (this w) ∧
  cmd_velocity_msgs_ (this w') = cmd_velocity_msgs_ (this w) ∧
  non_realtime_loop_ (this w') = non_realtime_loop_ (this w) ∧
  position_cmd_mode_ (this w') = position_cmd_mode_ (this w) ∧
  file_name_ (this w') = file_name_ (this w).

(** Every timer of the node is a sampling timer of the fixed period, the
    recorder's handle is a timer of the node, and no timer but the one
    the recorder holds is started. *)
Definition timers_inv (h : option nat) (ts : list Timer) : Prop :=
  Forall (λ t, period t = fromSec (d_div d_one RECORD_RATE_HZ) ∧
               timer_callback t = CbUpdate) ts ∧
  (∀ i, h = Some i → (i < length ts)%nat) ∧
  (∀ i t, ts !! i = Some t → started t = true → h = Some i).

Definition timers_ok (w : World) : Prop :=
  timers_inv (non_realtime_loop_ (this w)) (timers (ros w)).

(** The two subscriptions of the constructor. *)
Definition constructor_subscriptions (position_cmd_mode : bool) : list Subscription :=
  [mkSubscription "/robot/limb/left/joint_states" 1 CbStateCallback;
   if position_cmd_mode
   then mkSubscription "/robot/limb/left/command_joint_angles" 1 CbCmdPositionCallback
   else mkSubscription "/robot/limb/left/command_joint_velocities" 1 CbCmdVelocityCallback].

(** The period every sampling timer is created with. *)
Definition update_period : Duration := fromSec (d_div d_one RECORD_RATE_HZ).

(** *** Messages that fit a robot of [J] joints *)

(** A state message whose arrays cover its positions, at most [J] of
    them. *)
Definition state_fits (J : nat) (s : JointState) : Prop :=
  (length (position s) ≤ J)%nat ∧
  (length (position s) ≤ length (name s))%nat ∧
  (length (position s) ≤ length (velocity s))%nat ∧
  (length (position s) ≤ length (effort s))%nat.

(** The values of the command message the next tick will buffer. *)
Definition active_cmd_msg (r : Recorder) : list double :=
  if position_cmd_mode_ r then angles (cmd_position_msg_ r)
  else velocities (cmd_velocity_msg_ r).

(** Everything buffered and everything a tick would buffer next fits. *)
Definition fits (J : nat) (r : Recorder) : Prop :=
  paired r ∧
  Forall (state_fits J) (joint_states_ r) ∧
  Forall (λ c, (J ≤ length c)%nat) (active_cmds r) ∧
  state_fits J (state_msg_ r) ∧
  (J ≤ length (active_cmd_msg r))%nat.

Definition event_fits (J : nat) (ev : Event) : Prop :=
  match ev with
  | Message _ (InJointState m) => state_fits J m
  | Message _ (InJointPositions m) => (J ≤ length (angles m))%nat
  | Message _ (InJointVelocities m) => (J ≤ length (velocities m))%nat
  | _ => True
  end.

(** The timer events of a run. *)
Fixpoint count_ticks (evs : list Event) : nat :=
  match evs with
  | [] => 0
  | TimerFired _ _ :: rest => S (count_ticks rest)
  | _ :: rest => count_ticks rest
  end.

End Recorder.

(** ** An instance for examples: whole numbers as [double]

    Times are whole seconds here, so that the conversions are exact. *)

Definition show_Z (z : Z) : string := pretty z.

#[global] Instance Z_float64 : Float64 := {|
  double := Z;
  d_one := 1;
  d_sub := Z.sub;
  d_div := Z.div;
  show := show_Z;
  toSec := λ t, t;
  fromSec := λ d, d
|}.

#[global] Instance Z_constants : Constants := {|
  RECORD_RATE_HZ := 1;
  STATE_EXPIRED_TIMEOUT := 2
|}.

(** Names resolve to themselves, a leading [./] apart; the empty name
    and the names under the directory [nodir] cannot be opened. *)
Definition example_resolve (s : string) : option string :=
  if String.eqb s "" then None
  else if String.prefix "nodir/" s then None
  else if String.prefix "./" s
       then Some (String.substring 2 (String.length s - 2)%nat s)
       else Some s.

#[global] Instance example_filesystem : Filesystem := {|
  resolve := example_resolve
|}.

Definition node0 : Ros := mkRos [] [] ∅ [].

(** A one-joint state sample stamped [t] and a position command. *)
Definition sample (t : Time) (p : Z) : JointState :=
  mkJointState (mkHeader t "") ["w1"] [p] [p + 1] [p + 2].
Definition command (a : Z) : JointPositions := mkJointPositions ["w1"] [a].

(** The recorder right after construction, the first state message
    having arrived at time 10. *)
Definition constructed (mode : bool) : World :=
  match BaxterToCSV mode [mkSpinRound true [(10, InJointState (sample 10 5))]] node0 with
  | Ok (_, w) => w
  | Undefined => mkWorld (BaxterToCSV_members mode) node0
  end.

Definition after (evs : list Event) (w : World) : World :=
  match run evs w with
  | Ok (_, w') => w'
  | Undefined => w
  end.

Definition tick (now : Time) : Event := TimerFired now (mkTimerEvent (now - 1) now).

(** Recording has been started and nothing has been sampled yet. *)
Definition idle : World := after [StartRecording "out.csv"] (constructed true).

(** Two ticks, a command and a second state message in between. *)
Definition session : list Event :=
  [Message 10 (InJointPositions (command 7)); tick 11;
   Message 11 (InJointState (sample 11 6)); tick 12].
Definition recording : World := after session idle.

(** One tick after the first command. *)
Definition one_sample : World :=
  after [Message 10 (InJointPositions (command 7)); tick 11] idle.

(** One tick before any command has been received, in either mode. *)
Definition no_command_yet : World := after [tick 11] idle.
Definition no_velocity_command_yet : World :=
  after [StartRecording "out.csv"; tick 11] (constructed false).

(** A first command has been received; recording is yet to start. *)
Definition commanded : World :=
  after [Message 10 (InJointPositions (command 7))] (constructed true).

(** The answers of the node on which [constructed] is built, and answers
    that hand over nothing stamped with a non-zero time. *)
Definition first_state_script : list SpinRound :=
  [mkSpinRound true [(10, InJointState (sample 10 5))]].
Definition silent_script : list SpinRound :=
  [mkSpinRound true [];
   mkSpinRound true [(0, InJointState (sample 0 5));
                     (5, InJointPositions (command 7))]].

(** As [recording], under a file name that cannot be opened, and under
    another name of the file [out.csv]. *)
Definition recording_unopenable : World :=
  after (StartRecording "nodir/out.csv" :: session) (constructed true).
Definition recording_alias : World :=
  after (StartRecording "./out.csv" :: session) (constructed true).

(** As [recording], on a node that has a stopped timer of its own. *)
Definition foreign_node : Ros :=
  mkRos [] [mkTimer 5 CbStateCallback false] ∅ [].
Definition recording_beside : World :=
  after (StartRecording "out.csv" :: session)
    match BaxterToCSV true first_state_script foreign_node with
    | Ok (_, w) => w
    | Undefined => mkWorld (BaxterToCSV_members true) foreign_node
    end.

(** As [recording], the second state message carrying no joint names. *)
Definition nameless (t : Time) (p : Z) : JointState :=
  mkJointState (mkHeader t "") [] [p] [p + 1] [p + 2].
Definition short_names : World :=
  after [Message 10 (InJointPositions (command 7)); tick 11;
         Message 11 (InJointState (nameless 11 6)); tick 12] idle.

(** * Properties *)

Section Properties.

Context `{F : Float64} `{K : !Constants} `{P : Filesystem}.

#[local] Arguments put_file : simpl never.

(** ** Strings and files *)

Lemma string_app_assoc (a b c : string) : (a +:+ b) +:+ c = a +:+ (b +:+ c).
Proof.
  induction a as [|x a IH]; [done|].
  change (String x ((a +:+ b) +:+ c) = String x (a +:+ (b +:+ c))).
  by rewrite IH.
Qed.

Lemma string_app_nil_r (a : string) : a +:+ "" = a.
Proof.
  induction a as [|x a IH]; [done|].
  change (String x (a +:+ "") = String x a). by rewrite IH.
Qed.

Lemma cat_app (l k : list string) : cat (l ++ k) = cat l +:+ cat k.
Proof.
  induction l as [|x l IH]; [done|].
  cbn. by rewrite IH, string_app_assoc.
Qed.

Lemma put_file_nil h n : put_file h "" n = n.
Proof.
  destruct h as [fn|]; [|done].
  destruct n as [sb tm fl lg]. unfold put_file. cbn. f_equal.
  apply alter_id. intros c _. apply string_app_nil_r.
Qed.

Lemma put_file_put_file h s1 s2 n :
  put_file h s2 (put_file h s1 n) = put_file h (s1 +:+ s2) n.
Proof.
  destruct h as [fn|]; [|done].
  unfold put_file. cbn. f_equal.
  apply map_eq. intros k. destruct (decide (fn = k)) as [->|Hne].
  - rewrite !lookup_alter_eq.
    destruct (files n !! k) as [c|]; [|done]. cbn.
    by rewrite string_app_assoc.
  - by rewrite !lookup_alter_ne.
Qed.

(** ** Loops that only stream text *)

Ltac unfold_m :=
  unfold mbind, M_bind, mret, M_ret, member, assign, node, node_do, at_,
    ofs_put, ofs_open, log in *.

(** A loop whose body either streams a text depending on the index or
    leaves an array streams the texts in order, or leaves an array. *)
Lemma for_streams (fn : option string) (r : Recorder) (g : nat → option string)
    (body : nat → M unit) (idx : list nat) :
  (∀ j n, j ∈ idx →
     body j (mkWorld r n) =
     match g j with
     | Some s => Ok (tt, mkWorld r (put_file fn s n))
     | None => Undefined
     end) →
  ∀ n, for_ idx body (mkWorld r n) =
       match mapM g idx with
       | Some ss => Ok (tt, mkWorld r (put_file fn (cat ss) n))
       | None => Undefined
       end.
Proof.
  induction idx as [|j idx IH]; intros Hbody n.
  - cbn. by rewrite put_file_nil.
  - cbn [for_]. unfold mbind at 1, M_bind at 1.
    rewrite Hbody by apply list_elem_of_here.
    cbn [mapM]. destruct (g j) as [s|]; [|done]. cbn.
    rewrite IH by (intros; apply Hbody; by apply list_elem_of_further).
    destruct (mapM g idx) as [ss|]; [|done]. cbn.
    by rewrite put_file_put_file.
Qed.

Ltac step_bind := unfold mbind at 1, M_bind at 1.

Ltac norm_puts :=
  repeat progress
    (unfold ofs_put, node_do; cbn; rewrite ?put_file_put_file, ?string_app_assoc);
  try done.

(** [writeToFile] as a function of the buffers. *)
Lemma writeToFile_eq fn (w : World) :
  writeToFile fn w =
  match joint_states_ (this w) with
  | [] =>
      Ok (false, mkWorld (this w)
                   (logged ERROR "baxter_to_csv" "No joint states populated" (ros w)))
  | _ :: _ =>
      match rendered (this w) with
      | Some txt => Ok (true, mkWorld (this w) (written fn txt (ros w)))
      | None => Undefined
      end
  end.
Proof.
  destruct w as [r n]. unfold writeToFile, rendered.
  step_bind. cbn [member this ros].
  destruct (joint_states_ r) as [|s0 js] eqn:Hjs; [done|].
  cbn [length Nat.eqb].
  unfold joint_states_at, for_range.
  step_bind.
  assert (ofs_open fn (mkWorld r n) =
          Ok (resolve fn,
              mkWorld r (match resolve fn with
                         | Some k => mkRos (subscriptions n) (timers n)
                                       (<[k := ""]> (files n)) (rosout n)
                         | None => n
                         end))) as ->
    by (unfold ofs_open; by destruct (resolve fn)).
  set (n0 := match resolve fn with Some k => _ | None => n end).
  step_bind. cbn [ofs_put node_do this ros].
  step_bind. step_bind. cbn [member this ros at_].
  rewrite Hjs. unfold at_ at 1. cbn [lookup list_lookup].
  step_bind.
  rewrite (for_streams (resolve fn) r (rendered_header_cell r s0)).
  2: { intros j n' _. unfold rendered_header_cell. unfold_m. cbn.
       rewrite Hjs. cbn. destruct (name s0 !! j) as [nm|]; [|done].
       norm_puts. destruct (position_cmd_mode_ r); unfold node_do; norm_puts. }
  cbn [mbind option_bind].
  destruct (mapM (rendered_header_cell r s0) _) as [hs|]; [|done].
  step_bind. cbn [ofs_put node_do this ros].
  step_bind. step_bind. cbn [member this ros at_].
  rewrite Hjs. unfold at_ at 1. cbn [lookup list_lookup].
  step_bind. cbn [member this ros]. rewrite Hjs. cbn [length].
  step_bind.
  rewrite (for_streams (resolve fn) r (rendered_row r s0)).
  2: { intros i n' _. unfold rendered_row.
       step_bind. step_bind. cbn [member this ros at_].
       unfold at_ at 1. destruct (joint_states_ r !! i) as [si|]; [|done].
       cbn [mbind option_bind].
       step_bind. cbn [ofs_put node_do this ros].
       step_bind. cbn [ofs_put node_do this ros].
       step_bind.
       rewrite (for_streams (resolve fn) r (rendered_cell r i si)).
       2: { intros j n'' _. unfold rendered_cell, rendered_cmd,
              cmd_position_msgs_at, cmd_velocity_msgs_at. unfold_m. cbn.
            destruct (position si !! j) as [p|]; [|done]. cbn.
            destruct (velocity si !! j) as [vl|]; [|done]. cbn.
            destruct (effort si !! j) as [e|]; [|done]. cbn.
            destruct (position_cmd_mode_ r); cbn.
            - destruct (cmd_position_msgs_ r !! i) as [c|]; [|done]. cbn.
              destruct (angles c !! j) as [a|]; [|done]. norm_puts.
            - destruct (cmd_velocity_msgs_ r !! i) as [c|]; [|done]. cbn.
              destruct (velocities c !! j) as [a|]; [|done]. norm_puts. }
       destruct (mapM (rendered_cell r i si) _) as [cells|]; [|done].
       norm_puts. }
  destruct (mapM (rendered_row r s0) _) as [rows|]; [|done].
  unfold_m. cbn -[put_file]. subst n0. unfold written, stored, put_file.
  destruct (resolve fn) as [k|]; cbn; [|done].
  rewrite !alter_insert_eq.
  by rewrite !string_app_assoc.
Qed.

(** ** The streamed text and the table of the specification *)

Local Open Scope nat_scope.

Lemma mapM_pointwise {A} (g : nat → option A) (h : nat → A) (idx : list nat) :
  (∀ j, j ∈ idx → g j = Some (h j)) → mapM g idx = Some (h <$> idx).
Proof.
  induction idx as [|j idx IH]; intros Hg; [done|].
  cbn. rewrite Hg by apply list_elem_of_here. cbn.
  rewrite IH by (intros; apply Hg; by apply list_elem_of_further). done.
Qed.

Lemma mapM_seq_is_Some {A} (g : nat → option A) (n : nat) :
  is_Some (mapM g (seq 0 n)) ↔ ∀ j, j < n → is_Some (g j).
Proof.
  rewrite mapM_is_Some, Forall_seq. cbn. split; intros H j; [|intros [_ ?]]; auto.
  intros ?. apply H. lia.
Qed.

Lemma cat_flat_map (f : nat → list string) (idx : list nat) :
  cat ((λ x, x +:+ ",") <$> flat_map f idx) =
  cat ((λ j, cat ((λ x, x +:+ ",") <$> f j)) <$> idx).
Proof.
  induction idx as [|j idx IH]; [done|].
  cbn [flat_map fmap list_fmap cat]. rewrite fmap_app, cat_app. by rewrite IH.
Qed.

Lemma imap_seq {A B} `{!Inhabited A} (f : nat → A → B) (l : list A) :
  imap f l = (λ i, f i (l !!! i)) <$> seq 0 (length l).
Proof.
  apply list_eq. intros i.
  rewrite list_lookup_imap, list_lookup_fmap.
  destruct (l !! i) as [x|] eqn:Hi; cbn.
  - rewrite lookup_seq_lt by (by eapply lookup_lt_Some). cbn.
    by rewrite (list_lookup_total_correct _ _ _ Hi).
  - apply lookup_ge_None in Hi.
    assert (seq 0 (length l) !! i = None) as ->; [|done].
    apply lookup_ge_None. by rewrite length_seq.
Qed.

Lemma rendered_cmd_active (r : Recorder) i j :
  rendered_cmd r i j = (c ← active_cmds r !! i ; c !! j).
Proof.
  unfold rendered_cmd, active_cmds.
  destruct (position_cmd_mode_ r); rewrite list_lookup_fmap.
  - by destruct (cmd_position_msgs_ r !! i).
  - by destruct (cmd_velocity_msgs_ r !! i).
Qed.

Lemma in_bounds_spec (r : Recorder) :
  in_bounds r = true ↔
  header_in_bounds r = true ∧
  ∀ i si c, joint_states_ r !! i = Some si → active_cmds r !! i = Some c →
            row_in_bounds si c = true.
Proof.
  unfold in_bounds. rewrite andb_true_iff, forallb_forall.
  split; intros [Hh Hr]; (split; [done|]).
  - intros i si c Hs Hc. apply (Hr (si, c)).
    apply list_elem_of_In, list_elem_of_lookup. exists i.
    apply lookup_zip_with_Some. eauto.
  - intros [si c] [i Hi]%list_elem_of_In%list_elem_of_lookup.
    apply lookup_zip_with_Some in Hi as (x & y & [= -> ->] & ? & ?). eauto.
Qed.

Lemma row_in_bounds_spec (si : JointState) (c : list double) :
  row_in_bounds si c = true ↔
  length (position si) ≤ length (velocity si) ∧
  length (position si) ≤ length (effort si) ∧
  length (position si) ≤ length c.
Proof.
  unfold row_in_bounds. rewrite !andb_true_iff, !Nat.leb_le. tauto.
Qed.

Lemma header_cell_text (r : Recorder) (s0 : JointState) j :
  j < length (name s0) →
  rendered_header_cell r s0 j =
  Some (cat ((λ x, x +:+ ",") <$>
             joint_columns (position_cmd_mode_ r) (name s0 !!! j))).
Proof.
  intros Hj. unfold rendered_header_cell.
  rewrite (list_lookup_lookup_total_lt _ _ Hj). cbn.
  rewrite !string_app_assoc.
  by destruct (position_cmd_mode_ r).
Qed.

Lemma cell_text (r : Recorder) i (si : JointState) (c : list double) j :
  active_cmds r !! i = Some c →
  j < length (position si) → row_in_bounds si c = true →
  rendered_cell r i si j =
  Some (cat ((λ x, x +:+ ",") <$> joint_values si c j)).
Proof.
  intros Hc Hj (Hv & He & Ha)%row_in_bounds_spec. unfold rendered_cell.
  rewrite rendered_cmd_active, Hc. cbn.
  rewrite !list_lookup_lookup_total_lt by lia. cbn.
  by rewrite !string_app_assoc.
Qed.

Lemma row_text (r : Recorder) (s0 : JointState) i :
  paired r → in_bounds r = true → i < length (joint_states_ r) →
  rendered_row r s0 i =
  Some (csv_line (data_fields s0 (joint_states_ r !!! i) (active_cmds r !!! i))).
Proof.
  intros Hp [_ Hr]%in_bounds_spec Hi. unfold rendered_row.
  pose proof (list_lookup_lookup_total_lt (joint_states_ r) i Hi) as Hs.
  assert (i < length (active_cmds r)) as Hi' by (by rewrite <- Hp).
  pose proof (list_lookup_lookup_total_lt (active_cmds r) i Hi') as Hc.
  rewrite Hs. cbn.
  rewrite (mapM_pointwise _
             (λ j, cat ((λ x, x +:+ ",") <$>
                        joint_values (joint_states_ r !!! i) (active_cmds r !!! i) j))).
  2: { intros j [_ Hj]%elem_of_seq. apply cell_text; eauto. }
  cbn. unfold csv_line, data_fields. cbn [fmap list_fmap cat].
  by rewrite cat_flat_map, !string_app_assoc.
Qed.

(** Under the two conditions the streamed text is the table. *)
Lemma rendered_table (r : Recorder) :
  joint_states_ r ≠ [] → paired r → in_bounds r = true →
  rendered r = Some (csv_table r).
Proof.
  intros Hne Hp Hb. unfold rendered, csv_table, csv_lines.
  pose proof Hb as [Hh _]%in_bounds_spec. unfold header_in_bounds in Hh.
  pose proof (row_text r) as Hrow.
  destruct (joint_states_ r) as [|s0 js] eqn:Hjs; [done|].
  remember (s0 :: js) as l eqn:Hl.
  assert (l !! 0 = Some s0) as -> by (by subst l). cbn.
  apply Nat.leb_le in Hh.
  rewrite (mapM_pointwise (rendered_header_cell r s0)
             (λ j, cat ((λ x, x +:+ ",") <$>
                        joint_columns (position_cmd_mode_ r) (name s0 !!! j)))).
  2: { intros j [_ Hj]%elem_of_seq. apply header_cell_text. lia. }
  cbn.
  rewrite (mapM_pointwise (rendered_row r s0)
             (λ i, csv_line (data_fields s0 (l !!! i) (active_cmds r !!! i)))).
  2: { intros i [_ Hi]%elem_of_seq. apply Hrow; auto. }
  cbn. f_equal. rewrite imap_seq.
  unfold csv_line at 2, header_fields. cbn [fmap list_fmap cat].
  rewrite cat_flat_map, !string_app_assoc.
  rewrite <- list_fmap_compose. reflexivity.
Qed.

Lemma le_of_lt_bound (n m : nat) : (∀ j, j < n → j < m) → n ≤ m.
Proof. intros H. destruct n as [|n]; [lia|]. specialize (H n). lia. Qed.

Lemma cell_is_Some (r : Recorder) i (si : JointState) (c : list double) j :
  active_cmds r !! i = Some c →
  is_Some (rendered_cell r i si j) →
  j < length (velocity si) ∧ j < length (effort si) ∧ j < length c.
Proof.
  intros Hc. unfold rendered_cell. rewrite rendered_cmd_active, Hc. cbn.
  destruct (position si !! j) as [p|]; cbn; [|by intros [? ?]].
  destruct (velocity si !! j) as [vl|] eqn:Hv; cbn; [|by intros [? ?]].
  destruct (effort si !! j) as [e|] eqn:He; cbn; [|by intros [? ?]].
  destruct (c !! j) as [a|] eqn:Ha; cbn; [|by intros [? ?]].
  intros _. repeat split; by eapply lookup_lt_Some.
Qed.

(** The text is streamed to its end only if every index was in range. *)
Lemma rendered_in_bounds (r : Recorder) :
  is_Some (rendered r) → in_bounds r = true.
Proof.
  unfold rendered. intros Hsome. apply in_bounds_spec.
  destruct (joint_states_ r !! 0) as [s0|] eqn:H0; cbn in Hsome;
    [|by destruct Hsome].
  destruct (mapM (rendered_header_cell r s0) _) as [hs|] eqn:Hhs;
    cbn in Hsome; [|by destruct Hsome].
  destruct (mapM (rendered_row r s0) _) as [rows|] eqn:Hrows;
    cbn in Hsome; [|by destruct Hsome].
  split.
  - unfold header_in_bounds.
    destruct (joint_states_ r) as [|s0' js]; [done|]. injection H0 as ->.
    apply Nat.leb_le, le_of_lt_bound. intros j Hj.
    assert (is_Some (mapM (rendered_header_cell r s0) (seq 0 (length (position s0)))))
      as Hall by (by rewrite Hhs).
    rewrite mapM_seq_is_Some in Hall. specialize (Hall j Hj).
    unfold rendered_header_cell in Hall.
    destruct (name s0 !! j) eqn:Hn; [by eapply lookup_lt_Some|by destruct Hall].
  - intros i si c Hs Hc.
    assert (is_Some (mapM (rendered_row r s0) (seq 0 (length (joint_states_ r)))))
      as Hall by (by rewrite Hrows).
    rewrite mapM_seq_is_Some in Hall.
    specialize (Hall i (lookup_lt_Some _ _ _ Hs)).
    unfold rendered_row in Hall. rewrite Hs in Hall. cbn in Hall.
    destruct (mapM (rendered_cell r i si) _) as [cells|] eqn:Hcells;
      [|by destruct Hall].
    assert (is_Some (mapM (rendered_cell r i si) (seq 0 (length (position si)))))
      as Hcs by (by rewrite Hcells).
    rewrite mapM_seq_is_Some in Hcs.
    apply row_in_bounds_spec.
    split; [|split]; apply le_of_lt_bound; intros j Hj;
      destruct (cell_is_Some r i si c j Hc (Hcs j Hj)) as (? & ? & ?); done.
Qed.

(** ** The other methods as functions of the state *)

Lemma stopRecording_eq (w : World) :
  stopRecording w =
  match writeToFile (file_name_ (this w))
          (mkWorld (this w) (stopped (non_realtime_loop_ (this w)) (ros w))) with
  | Ok (_, w') => Ok (tt, w')
  | Undefined => Undefined
  end.
Proof.
  unfold stopRecording, non_realtime_loop_stop. unfold_m. cbn.
  by destruct (writeToFile _ _) as [[b w']|].
Qed.

Lemma startRecording_eq fn (w : World) :
  startRecording fn w =
  Ok (tt, mkWorld
            (reset_buffers fn (length (timers (ros w))) (this w))
            (stopped (non_realtime_loop_ (this w))
               (mkRos (subscriptions (ros w))
                      (timers (ros w) ++ [mkTimer update_period CbUpdate true])
                      (files (ros w)) (rosout (ros w))))).
Proof. reflexivity. Qed.

Lemma update_eq now e (w : World) :
  update now e w =
  let w1 := if first_update_ (this w)
            then mkWorld (set_first_update_ false (this w)) (ros w)
            else mkWorld (this w) (logged INFO "update" "Updating with period: " (ros w)) in
  let stale := (now >? state_msg_timestamp_ (this w1) + fromSec STATE_EXPIRED_TIMEOUT)%Z in
  match
    (if stale then
       stopRecording
         (mkWorld (this w1)
            (logged ERROR "update" "Aborting early"
               (logged WARN (arm_name_ (this w1))
                  "State expired. Last recieved state " (ros w1))))
     else Ok (tt, w1))
  with
  | Ok (_, w2) => Ok (tt, mkWorld (push_sample (this w2)) (ros w2))
  | Undefined => Undefined
  end.
Proof.
  destruct w as [r n]. unfold update, stateExpired, push_sample. unfold_m. cbn.
  destruct (first_update_ r); cbn;
    (destruct (now >? _)%Z; cbn;
     [ destruct (stopRecording _) as [[[] w2]|]; cbn; [|done] | ];
     by destruct (position_cmd_mode_ _)).
Qed.

(** ** The freshness check *)

(** C7: [stateExpired] returns [true] exactly when the current time is
    strictly greater than the time the last state message was received
    plus [STATE_EXPIRED_TIMEOUT]; it changes no member of the recorder
    (and no subscription, timer or file of the node; it only logs). *)
Theorem stateExpired_iff now (w : World) :
  ∃ b w', stateExpired now w = Ok (b, w') ∧
    (b = true ↔
     (now > state_msg_timestamp_ (this w) + fromSec STATE_EXPIRED_TIMEOUT)%Z) ∧
    this w' = this w ∧
    subscriptions (ros w') = subscriptions (ros w) ∧
    timers (ros w') = timers (ros w) ∧
    files (ros w') = files (ros w).
Proof.
  unfold stateExpired. unfold_m. cbn.
  destruct (Z.gtb_spec now
              (state_msg_timestamp_ (this w) + fromSec STATE_EXPIRED_TIMEOUT))
    as [Hgt|Hle]; eexists _, _; (split; [reflexivity|]); cbn;
    repeat split; try done; lia.
Qed.

(** ** The file writer *)

Lemma writeToFile_frame fn (w : World) b w' :
  writeToFile fn w = Ok (b, w') →
  this w' = this w ∧ subscriptions (ros w') = subscriptions (ros w) ∧
  timers (ros w') = timers (ros w).
Proof.
  rewrite writeToFile_eq.
  destruct (joint_states_ (this w)); [by intros [= <- <-]|].
  destruct (rendered (this w)); [by intros [= <- <-]|done].
Qed.

Lemma writeToFile_in_bounds fn (w : World) :
  joint_states_ (this w) ≠ [] → paired (this w) → in_bounds (this w) = true →
  writeToFile fn w =
  Ok (true, mkWorld (this w) (written fn (csv_table (this w)) (ros w))).
Proof.
  intros Hne Hp Hb. rewrite writeToFile_eq, rendered_table by done.
  by destruct (joint_states_ (this w)).
Qed.

(** C8, as amended: on an empty state buffer [writeToFile] returns
    [false] and leaves the members, the files, the timers and the
    subscriptions as they were; on a non-empty state buffer whose samples
    are paired with commands and whose arrays are long enough for the
    indexing it returns [true]. *)
Theorem writeToFile_result fn (w : World) :
  (joint_states_ (this w) = [] →
   ∃ w', writeToFile fn w = Ok (false, w') ∧
         this w' = this w ∧ files (ros w') = files (ros w) ∧
         timers (ros w') = timers (ros w) ∧
         subscriptions (ros w') = subscriptions (ros w)) ∧
  (joint_states_ (this w) ≠ [] → paired (this w) → in_bounds (this w) = true →
   ∃ w', writeToFile fn w = Ok (true, w')).
Proof.
  split.
  - intros He. rewrite writeToFile_eq, He. eexists. by split.
  - intros Hne Hp Hb. rewrite writeToFile_in_bounds by done. by eexists.
Qed.


(** C10, as amended: when every state sample is paired with a command,
    the indexing of [writeToFile] stays in range exactly when the first
    sample's array of names is at least as long as its array of positions
    and, for every sample [i], the arrays of velocities, of efforts and of
    the i-th command's values are at least as long as the sample's array
    of positions; otherwise the call is undefined, as the code checks no
    bound. *)
Theorem writeToFile_defined_iff fn (w : World) :
  paired (this w) →
  (writeToFile fn w ≠ Undefined ↔ in_bounds (this w) = true).
Proof.
  intros Hp. rewrite writeToFile_eq.
  destruct (joint_states_ (this w)) as [|s0 js] eqn:Hjs.
  - split; [intros _|done]. unfold in_bounds, header_in_bounds.
    by rewrite Hjs.
  - split.
    + intros Hdef. apply rendered_in_bounds.
      destruct (rendered (this w)); [by eexists|done].
    + intros Hb. rewrite rendered_table; [done| |done..].
      by rewrite Hjs.
Qed.

(** ** The sampling tick *)

(** C3: at a tick at which the state message is not stale, [update]
    appends [state_msg_] to [joint_states_] and the command message of
    the recorder's mode to the buffer of that mode, one sample each; the
    other buffers, the timers, the files and the subscriptions stay as
    they were.  The messages appended are the ones the callbacks stored
    last. *)
Theorem update_fresh_appends now e (w : World) :
  (now ≤ state_msg_timestamp_ (this w) + fromSec STATE_EXPIRED_TIMEOUT)%Z →
  ∃ w', update now e w = Ok (tt, w') ∧
    joint_states_ (this w') = (joint_states_ (this w) ++ [state_msg_ (this w)])%list ∧
    (if position_cmd_mode_ (this w)
     then cmd_position_msgs_ (this w') =
            (cmd_position_msgs_ (this w) ++ [cmd_position_msg_ (this w)])%list ∧
          cmd_velocity_msgs_ (this w') = cmd_velocity_msgs_ (this w)
     else cmd_velocity_msgs_ (this w') =
            (cmd_velocity_msgs_ (this w) ++ [cmd_velocity_msg_ (this w)])%list ∧
          cmd_position_msgs_ (this w') = cmd_position_msgs_ (this w)) ∧
    joint_commands_ (this w') = joint_commands_ (this w) ∧
    timers (ros w') = timers (ros w) ∧ files (ros w') = files (ros w) ∧
    subscriptions (ros w') = subscriptions (ros w) ∧
    (∀ t m w0, ∃ w1, stateCallback t m w0 = Ok (tt, w1) ∧
                     state_msg_ (this w1) = m ∧ state_msg_timestamp_ (this w1) = t) ∧
    (∀ m w0, ∃ w1, cmdPositionCallback m w0 = Ok (tt, w1) ∧
                   cmd_position_msg_ (this w1) = m) ∧
    (∀ m w0, ∃ w1, cmdVelocityCallback m w0 = Ok (tt, w1) ∧
                   cmd_velocity_msg_ (this w1) = m).
Proof.
  intros Hfresh. rewrite update_eq. cbn zeta.
  assert ((now >? state_msg_timestamp_ (this w) + fromSec STATE_EXPIRED_TIMEOUT)%Z
          = false) as Hb by (rewrite Z.gtb_ltb; apply Z.ltb_ge; lia).
  destruct w as [r n]. cbn [this ros] in *.
  destruct (first_update_ r) eqn:Hfu; cbn; rewrite Hb;
    (eexists; split; [reflexivity|]);
    unfold push_sample; cbn;
    destruct (position_cmd_mode_ r) eqn:Hm; cbn;
    repeat split; try done; intros; eexists; by repeat split.
Qed.

Lemma timer_started_stop_timer (h : option nat) (ts : list Timer) :
  timer_started h (stop_timer h ts) = false.
Proof.
  destruct h as [i|]; [|done]. cbn.
  destruct (ts !! i) as [t|] eqn:Hi; [|by rewrite Hi].
  by rewrite list_lookup_insert_eq by (by eapply lookup_lt_Some).
Qed.

Lemma stopRecording_in_bounds (w : World) :
  joint_states_ (this w) ≠ [] → paired (this w) → in_bounds (this w) = true →
  stopRecording w =
  Ok (tt, mkWorld (this w)
            (written (file_name_ (this w)) (csv_table (this w))
               (stopped (non_realtime_loop_ (this w)) (ros w)))).
Proof.
  intros Hne Hp Hb. rewrite stopRecording_eq.
  by rewrite writeToFile_in_bounds.
Qed.

(** C1, what the code does at a stale tick: with samples already
    buffered (paired with commands, arrays long enough), [update] stops
    the timer and streams the samples buffered so far to the file (which
    then holds their table, if its name could be opened), and then still
    appends the state message and the command message to their
    buffers. *)
Theorem update_stale_still_appends now e (w : World) :
  (now > state_msg_timestamp_ (this w) + fromSec STATE_EXPIRED_TIMEOUT)%Z →
  joint_states_ (this w) ≠ [] → paired (this w) → in_bounds (this w) = true →
  ∃ w', update now e w = Ok (tt, w') ∧
    timer_started (non_realtime_loop_ (this w')) (timers (ros w')) = false ∧
    files (ros w') =
      stored (file_name_ (this w)) (csv_table (this w)) (files (ros w)) ∧
    joint_states_ (this w') =
      (joint_states_ (this w) ++ [state_msg_ (this w)])%list ∧
    length (active_cmds (this w')) = S (length (active_cmds (this w))).
Proof.
  intros Hstale Hne Hp Hb.
  assert ((now >? state_msg_timestamp_ (this w) + fromSec STATE_EXPIRED_TIMEOUT)%Z
          = true) as Hgt by (rewrite Z.gtb_ltb; apply Z.ltb_lt; lia).
  destruct w as [r n]. cbn [this ros] in *.
  rewrite update_eq. cbn [this ros].
  destruct (first_update_ r) eqn:Hfu; cbn -[stopRecording]; rewrite Hgt;
    rewrite stopRecording_in_bounds by done;
    (eexists; split; [reflexivity|]); cbn;
    (split; [unfold push_sample; cbn; destruct (position_cmd_mode_ r); cbn;
             apply timer_started_stop_timer|]);
    (split; [reflexivity|]);
    unfold push_sample, active_cmds; cbn;
    destruct (position_cmd_mode_ r) eqn:Hm; cbn; rewrite ?Hm;
    (split; [done|]); rewrite fmap_app, length_app; cbn; lia.
Qed.

(** ** Callbacks and the constructor *)

Lemma same_recording_refl (w : World) : same_recording w w.
Proof. by repeat split. Qed.

Lemma same_recording_trans (w1 w2 w3 : World) :
  same_recording w1 w2 → same_recording w2 w3 → same_recording w1 w3.
Proof.
  unfold same_recording. intros H1 H2.
  destruct H1 as (?&?&?&?&?&?&?&?&?&?), H2 as (?&?&?&?&?&?&?&?&?&?).
  repeat split; congruence.
Qed.

Lemma deliver_same now msg (w : World) :
  ∃ w', deliver now msg w = Ok (tt, w') ∧ same_recording w w'.
Proof.
  unfold deliver, subscribed, stateCallback, cmdPositionCallback,
    cmdVelocityCallback. unfold_m.
  destruct msg; cbn; destruct (bool_decide _); cbn;
    eexists; (split; [reflexivity|]); by repeat split.
Qed.

Lemma spinOnce_same q (w : World) :
  ∃ w', spinOnce q w = Ok (tt, w') ∧ same_recording w w'.
Proof.
  revert w. induction q as [|[now msg] q IH]; intros w.
  - eexists. split; [reflexivity|]. apply same_recording_refl.
  - cbn [spinOnce]. step_bind.
    destruct (deliver_same now msg w) as (w1 & -> & H1).
    destruct (IH w1) as (w2 & -> & H2).
    eexists. split; [reflexivity|]. by eapply same_recording_trans.
Qed.

Lemma wait_first_state_same script (w : World) :
  ∃ b w', wait_first_state script w = Ok (b, w') ∧ same_recording w w'.
Proof.
  revert w. induction script as [|r script IH]; intros w; cbn [wait_first_state];
    step_bind; cbn [member];
    (destruct (state_msg_timestamp_ (this w) =? 0)%Z;
     [|eexists _, _; split; [reflexivity|apply same_recording_refl]]).
  - eexists _, _. split; [reflexivity|apply same_recording_refl].
  - destruct (ros_ok r);
      [|eexists _, _; split; [reflexivity|apply same_recording_refl]].
    step_bind. cbn [member]. step_bind. cbn [log node_do]. step_bind.
    destruct (spinOnce_same (queued r)
                (mkWorld (this w)
                   (logged INFO (arm_name_ (this w))
                      "Waiting for first state message to be recieved" (ros w))))
      as (w1 & -> & H1).
    destruct (IH w1) as (b & w2 & -> & H2).
    eexists _, _. split; [reflexivity|].
    eapply same_recording_trans; [|exact H2].
    eapply same_recording_trans; [|exact H1]. by repeat split.
Qed.

(** The constructor returns, and the state it returns in. *)
Lemma BaxterToCSV_returns mode script (n : Ros) :
  ∃ b w, BaxterToCSV mode script n = Ok (b, w) ∧
    subscriptions (ros w) = (subscriptions n ++ constructor_subscriptions mode)%list ∧
    timers (ros w) = timers n ∧ files (ros w) = files n ∧
    joint_states_ (this w) = [] ∧ cmd_position_msgs_ (this w) = [] ∧
    cmd_velocity_msgs_ (this w) = [] ∧ non_realtime_loop_ (this w) = None ∧
    position_cmd_mode_ (this w) = mode.
Proof.
  unfold BaxterToCSV, BaxterToCSV_body, subscribe. unfold_m.
  destruct mode; cbn;
    match goal with
    | |- context [wait_first_state script ?w0] =>
        destruct (wait_first_state_same script w0)
          as (b & w & -> & (Hs&Ht&Hf&Hj&_&Hp&Hv&Hh&Hm&_))
    end; cbn in *;
    exists b, w; (split; [reflexivity|]);
    rewrite Hs, Ht, Hf, Hj, Hp, Hv, Hh, Hm, <- app_assoc; by repeat split.
Qed.

(** ** What a step of a run changes *)

Lemma stopRecording_frame (w w' : World) :
  stopRecording w = Ok (tt, w') →
  this w' = this w ∧ subscriptions (ros w') = subscriptions (ros w) ∧
  timers (ros w') = stop_timer (non_realtime_loop_ (this w)) (timers (ros w)).
Proof.
  rewrite stopRecording_eq.
  destruct (writeToFile _ _) as [[b w1]|] eqn:Hw; [|done].
  intros [= <-]. by apply writeToFile_frame in Hw as (-> & -> & ->).
Qed.

Lemma update_frame now e (w w' : World) :
  update now e w = Ok (tt, w') →
  ∃ r1, (r1 = this w ∨ r1 = set_first_update_ false (this w)) ∧
    this w' = push_sample r1 ∧
    subscriptions (ros w') = subscriptions (ros w) ∧
    (timers (ros w') = timers (ros w) ∨
     timers (ros w') = stop_timer (non_realtime_loop_ (this w)) (timers (ros w))).
Proof.
  rewrite update_eq. cbn zeta.
  destruct w as [r n]. cbn [this ros].
  destruct (first_update_ r); cbn -[stopRecording];
    (destruct (_ >? _)%Z;
     [ destruct (stopRecording _) as [[[] w2]|] eqn:Hs; [|done];
       apply stopRecording_frame in Hs as (Ht & Hsub & Htm); cbn in Ht, Hsub, Htm
     | ]);
    intros [= <-]; cbn [this ros]; eexists; rewrite ?Ht;
    (split; [|split; [reflexivity|split; [done|]]]); eauto.
Qed.

Lemma run_invariant (I : World → Prop) (Q : Event → Prop) :
  (∀ ev w w', Q ev → I w → step ev w = Ok (tt, w') → I w') →
  ∀ evs w w', Forall Q evs → I w → run evs w = Ok (tt, w') → I w'.
Proof.
  intros Hstep evs. induction evs as [|ev evs IH]; intros w w' HQ Hi.
  - by intros [= <-].
  - apply Forall_cons in HQ as [Hq HQ]. cbn [run]. step_bind.
    destruct (step ev w) as [[[] w1]|] eqn:Hs; [|done].
    intros Hr. eapply IH; [done| |done]. by eapply Hstep.
Qed.

Lemma step_cases (ev : Event) (w w' : World) :
  step ev w = Ok (tt, w') →
  match ev with
  | Message _ _ => same_recording w w'
  | TimerFired now e =>
      w' = w ∨
      (timer_started (non_realtime_loop_ (this w)) (timers (ros w)) = true ∧
       update now e w = Ok (tt, w'))
  | StartRecording fn => startRecording fn w = Ok (tt, w')
  | StopRecording => stopRecording w = Ok (tt, w')
  end.
Proof.
  destruct ev as [now msg|now e|fn|]; cbn [step]; try done.
  - destruct (deliver_same now msg w) as (w1 & -> & H). by intros [= <-].
  - step_bind. cbn [member]. step_bind. cbn [node].
    destruct (timer_started _ _); [by right|]. intros [= <-]. by left.
Qed.

(** *** Pairing of the buffers *)

Lemma paired_push_sample (r : Recorder) : paired r → paired (push_sample r).
Proof.
  unfold paired, push_sample, active_cmds. cbn.
  destruct (position_cmd_mode_ r) eqn:Hm; cbn; rewrite Hm;
    rewrite fmap_app, !length_app; cbn; lia.
Qed.

Lemma paired_step (ev : Event) (w w' : World) :
  paired (this w) → step ev w = Ok (tt, w') → paired (this w').
Proof.
  intros Hp Hs. apply step_cases in Hs. destruct ev as [now msg|now e|fn|].
  - destruct Hs as (_&_&_&Hj&_&Hc&Hv&_&Hm&_).
    unfold paired, active_cmds in *. by rewrite Hj, Hc, Hv, Hm.
  - destruct Hs as [->|[_ Hu]]; [done|].
    apply update_frame in Hu as (r1 & [->| ->] & -> & _);
      by apply paired_push_sample.
  - rewrite startRecording_eq in Hs. injection Hs as <-.
    unfold paired, active_cmds. cbn. by destruct (position_cmd_mode_ _).
  - by apply stopRecording_frame in Hs as (-> & _).
Qed.

(** *** Subscriptions *)

Lemma subscriptions_step (ev : Event) (w w' : World) :
  step ev w = Ok (tt, w') → subscriptions (ros w') = subscriptions (ros w).
Proof.
  intros Hs. apply step_cases in Hs. destruct ev as [now msg|now e|fn|].
  - by destruct Hs as (? & _).
  - destruct Hs as [->|[_ Hu]]; [done|].
    by apply update_frame in Hu as (r1 & _ & _ & ? & _).
  - rewrite startRecording_eq in Hs. by injection Hs as <-.
  - by apply stopRecording_frame in Hs as (_ & ? & _).
Qed.

(** *** Timers *)

Lemma length_stop_timer (h : option nat) (ts : list Timer) :
  length (stop_timer h ts) = length ts.
Proof.
  destruct h as [i|]; [|done]. cbn.
  destruct (ts !! i); [|done]. by rewrite length_insert.
Qed.

Lemma stop_timer_stopped (h : option nat) (ts : list Timer) i t :
  timers_inv h ts → stop_timer h ts !! i = Some t → started t = false.
Proof.
  intros (_ & _ & Hst) Hi. destruct (started t) eqn:Ht; [|done].
  destruct h as [i0|]; cbn in Hi.
  - destruct (ts !! i0) as [t0|] eqn:H0.
    + destruct (decide (i0 = i)) as [->|Hne].
      * rewrite list_lookup_insert_eq in Hi by (by eapply lookup_lt_Some).
        injection Hi as <-. done.
      * rewrite list_lookup_insert_ne in Hi by done.
        specialize (Hst i t Hi Ht). congruence.
    + specialize (Hst i t Hi Ht). congruence.
  - by specialize (Hst i t Hi Ht).
Qed.

Lemma timers_inv_stop (h : option nat) (ts : list Timer) :
  timers_inv h ts → timers_inv h (stop_timer h ts).
Proof.
  intros Hinv. pose proof Hinv as (Hall & Hh & Hst). repeat split.
  - destruct h as [i|]; [|done]. cbn.
    destruct (ts !! i) as [t|] eqn:Hi; [|done].
    apply Forall_insert; [done|].
    by apply (proj1 (Forall_lookup _ _) Hall i t).
  - intros i ->. rewrite length_stop_timer. by apply Hh.
  - intros i t Hi Ht.
    by rewrite (stop_timer_stopped h ts i t Hinv Hi) in Ht.
Qed.

Lemma stop_timer_app (h : option nat) (ts : list Timer) (t : Timer) :
  (∀ i, h = Some i → i < length ts) →
  stop_timer h (ts ++ [t]) = (stop_timer h ts ++ [t])%list.
Proof.
  intros Hh. destruct h as [i|]; [|done]. cbn.
  specialize (Hh i eq_refl).
  rewrite lookup_app_l by done.
  destruct (ts !! i) as [t0|]; [|done].
  by rewrite insert_app_l.
Qed.

Lemma timers_inv_start (h : option nat) (ts : list Timer) :
  timers_inv h ts →
  timers_inv (Some (length ts))
    (stop_timer h (ts ++ [mkTimer update_period CbUpdate true])).
Proof.
  intros Hinv. pose proof Hinv as (Hall & Hh & Hst).
  rewrite stop_timer_app by done.
  pose proof (timers_inv_stop h ts Hinv) as (Hall' & _ & _).
  repeat split.
  - apply Forall_app. split; [done|]. by apply Forall_singleton.
  - intros i [= <-]. rewrite length_app, length_stop_timer. cbn. lia.
  - intros i t Hi Ht.
    destruct (decide (i < length ts)) as [Hlt|Hge].
    + rewrite lookup_app_l in Hi by (by rewrite length_stop_timer).
      by rewrite (stop_timer_stopped h ts i t Hinv Hi) in Ht.
    + apply lookup_lt_Some in Hi as Hlen.
      rewrite length_app, length_stop_timer in Hlen. cbn in Hlen.
      f_equal. lia.
Qed.

Lemma timers_ok_step (ev : Event) (w w' : World) :
  timers_ok w → step ev w = Ok (tt, w') → timers_ok w'.
Proof.
  unfold timers_ok. intros Hinv Hs. apply step_cases in Hs.
  destruct ev as [now msg|now e|fn|].
  - destruct Hs as (_&Ht&_&_&_&_&_&Hh&_). by rewrite Ht, Hh.
  - destruct Hs as [->|[_ Hu]]; [done|].
    apply update_frame in Hu as (r1 & Hr1 & -> & _ & Ht).
    assert (non_realtime_loop_ (push_sample r1) = non_realtime_loop_ (this w))
      as -> by (destruct Hr1 as [-> | ->]; unfold push_sample; cbn;
                by destruct (position_cmd_mode_ _)).
    destruct Ht as [-> | ->]; [done|]. by apply timers_inv_stop.
  - rewrite startRecording_eq in Hs. injection Hs as <-. cbn.
    by apply timers_inv_start.
  - apply stopRecording_frame in Hs as (-> & _ & ->). by apply timers_inv_stop.
Qed.

Lemma file_name_step (ev : Event) (w w' : World) :
  (∀ fn, ev ≠ StartRecording fn) → step ev w = Ok (tt, w') →
  file_name_ (this w') = file_name_ (this w).
Proof.
  intros Hne Hs. apply step_cases in Hs. destruct ev as [now msg|now e|fn|].
  - by destruct Hs as (_&_&_&_&_&_&_&_&_&?).
  - destruct Hs as [->|[_ Hu]]; [done|].
    apply update_frame in Hu as (r1 & [-> | ->] & -> & _);
      unfold push_sample; cbn; by destruct (position_cmd_mode_ _).
  - by destruct (Hne fn).
  - by apply stopRecording_frame in Hs as (-> & _).
Qed.

(** ** The claims about runs *)

Lemma buffers_paired_aux fn evs (w w' : World) :
  run (StartRecording fn :: evs) w = Ok (tt, w') → paired (this w').
Proof.
  intros Hrun.
  cbn [run] in Hrun. revert Hrun. step_bind. cbn [step].
  rewrite startRecording_eq. intros Hrun.
  eapply (run_invariant (λ w, paired (this w)) (λ _, True)); [| |  |exact Hrun].
  - intros ev w1 w2 _. apply paired_step.
  - by apply Forall_true.
  - unfold paired, active_cmds. cbn. by destruct (position_cmd_mode_ _).
Qed.

(** C9: after [startRecording] and after every step of a run that
    follows it, every tick of [update] included, the state buffer and
    the command buffer of the recorder's mode have the same length, so
    that every state sample has a command sample at its index; [update]
    keeps the two lengths equal from any state in which they are. *)
Theorem buffers_paired fn evs now e (w w' w'' : World) :
  run (StartRecording fn :: evs) w = Ok (tt, w') →
  paired (this w') ∧
  (∀ i si, joint_states_ (this w') !! i = Some si →
           is_Some (active_cmds (this w') !! i)) ∧
  (update now e w' = Ok (tt, w'') → paired (this w'')).
Proof.
  intros Hrun.
  pose proof (buffers_paired_aux fn evs w w' Hrun) as Hp.
  split; [done|]. split.
  - intros i si Hi. apply lookup_lt_is_Some. rewrite <- Hp.
    by eapply lookup_lt_Some.
  - intros Hu. apply update_frame in Hu as (r1 & [-> | ->] & -> & _);
      by apply paired_push_sample.
Qed.

(** C6: the constructor returns having added exactly two subscriptions
    to the node, the joint states of the left arm and, by the mode, its
    commanded joint angles or its commanded joint velocities; no step of
    a run after it changes the subscriptions. *)
Theorem constructor_subscribes mode script (n : Ros) :
  ∃ b w, BaxterToCSV mode script n = Ok (b, w) ∧
    subscriptions (ros w) =
      (subscriptions n ++
       [mkSubscription "/robot/limb/left/joint_states" 1 CbStateCallback;
        if mode
        then mkSubscription "/robot/limb/left/command_joint_angles" 1
               CbCmdPositionCallback
        else mkSubscription "/robot/limb/left/command_joint_velocities" 1
               CbCmdVelocityCallback])%list ∧
    ∀ evs w', run evs w = Ok (tt, w') →
              subscriptions (ros w') = subscriptions (ros w).
Proof.
  destruct (BaxterToCSV_returns mode script n) as (b & w & Hc & Hs & _).
  exists b, w. split; [done|]. split; [done|].
  intros evs w' Hrun.
  eapply (run_invariant (λ w1, subscriptions (ros w1) = subscriptions (ros w))
            (λ _, True)); [| | |exact Hrun]; [|by apply Forall_true|done].
  intros ev w1 w2 _ H1 Hstep. by rewrite (subscriptions_step _ _ _ Hstep).
Qed.

(** C5: [startRecording] creates a started timer that calls [update]
    with the period [1.0 / RECORD_RATE_HZ], whatever the file name and
    the state; in every run of a recorder constructed on a node without
    timers, every timer of the node is such a timer and none but the one
    the recorder holds is started. *)
Theorem sampling_timer_fixed_rate fn (w : World) mode script (n : Ros) b
    (w0 : World) evs (w1 : World) :
  ((∀ h, non_realtime_loop_ (this w) = Some h → h < length (timers (ros w))) →
   ∃ w' h, startRecording fn w = Ok (tt, w') ∧
     non_realtime_loop_ (this w') = Some h ∧
     timers (ros w') !! h =
       Some (mkTimer (fromSec (d_div d_one RECORD_RATE_HZ)) CbUpdate true) ∧
     length (timers (ros w')) = S (length (timers (ros w)))) ∧
  (timers n = [] → BaxterToCSV mode script n = Ok (b, w0) →
   run evs w0 = Ok (tt, w1) → timers_ok w1).
Proof.
  split.
  - intros Hh. rewrite startRecording_eq. eexists _, _.
    split; [reflexivity|]. cbn. split; [reflexivity|].
    rewrite stop_timer_app by done.
    split.
    + by rewrite lookup_app_r, length_stop_timer, Nat.sub_diag
        by (by rewrite length_stop_timer).
    + rewrite length_app, length_stop_timer. cbn. lia.
  - intros Hn Hc Hrun.
    destruct (BaxterToCSV_returns mode script n)
      as (b' & w0' & Hc' & _ & Ht & _ & _ & _ & _ & Hh & _).
    rewrite Hc in Hc'. injection Hc' as <- <-.
    eapply (run_invariant timers_ok (λ _, True)); [| | |exact Hrun].
    + intros ev wa wb _. apply timers_ok_step.
    + by apply Forall_true.
    + unfold timers_ok, timers_inv. rewrite Ht, Hn, Hh. by repeat split.
Qed.

(** C2, as amended: in a recording session, from [startRecording fn]
    on and with no other [startRecording] in between, [stopRecording]
    stops the sampling timer and, if at least one sample has been
    buffered and the arrays are long enough for the indexing, leaves in
    the file [fn] resolves to the table of all buffered samples, when
    [fn] can be opened, and the files as they are when it cannot; if no
    sample has been buffered it leaves the files as they are. *)
Theorem stopRecording_writes_session fn evs (w0 w : World) :
  Forall (λ ev, ∀ fn', ev ≠ StartRecording fn') evs →
  run (StartRecording fn :: evs) w0 = Ok (tt, w) →
  (joint_states_ (this w) ≠ [] → in_bounds (this w) = true →
   ∃ w', stopRecording w = Ok (tt, w') ∧
     timer_started (non_realtime_loop_ (this w')) (timers (ros w')) = false ∧
     (∀ k, resolve fn = Some k →
           files (ros w') = <[k := csv_table (this w)]> (files (ros w))) ∧
     (resolve fn = None → files (ros w') = files (ros w)) ∧
     this w' = this w) ∧
  (joint_states_ (this w) = [] →
   ∃ w', stopRecording w = Ok (tt, w') ∧
     timer_started (non_realtime_loop_ (this w')) (timers (ros w')) = false ∧
     files (ros w') = files (ros w) ∧
     this w' = this w).
Proof.
  intros Hq Hrun.
  pose proof (buffers_paired_aux fn evs w0 w Hrun) as Hp.
  assert (file_name_ (this w) = fn) as Hfn.
  { cbn [run] in Hrun. revert Hrun. step_bind. cbn [step].
    rewrite startRecording_eq. intros Hrun.
    eapply (run_invariant (λ w, file_name_ (this w) = fn)); [|exact Hq| |exact Hrun].
    - intros ev w1 w2 Hne H1 Hs. by rewrite (file_name_step _ _ _ Hne Hs).
    - done. }
  split.
  - intros Hne Hb. rewrite stopRecording_in_bounds by done.
    eexists. split; [reflexivity|]. cbn. rewrite Hfn.
    split; [apply timer_started_stop_timer|].
    unfold stored.
    repeat split; [by intros k ->|by intros ->].
  - intros He. rewrite stopRecording_eq, writeToFile_eq. cbn [this]. rewrite He.
    eexists. split; [reflexivity|]. cbn.
    split; [apply timer_started_stop_timer|done].
Qed.

(** * Further properties of the recorder *)

(** ** The constructor's waiting loop *)

Lemma wait_first_state_exit script (w : World) b w' :
  wait_first_state script w = Ok (b, w') →
  (b = false → state_msg_timestamp_ (this w') = 0%Z) ∧
  (b = true → Forall (λ r, ros_ok r = true) script →
   state_msg_timestamp_ (this w') ≠ 0%Z).
Proof.
  revert w. induction script as [|r script IH]; intros w; cbn [wait_first_state];
    step_bind; cbn [member];
    destruct (state_msg_timestamp_ (this w) =? 0)%Z eqn:Hts.
  - intros [= <- <-]. split; [|done]. intros _. by apply Z.eqb_eq.
  - intros [= <- <-]. split; [done|]. intros _ _. by apply Z.eqb_neq.
  - destruct (ros_ok r) eqn:Hok.
    + step_bind. cbn [member]. step_bind. cbn [log node_do]. step_bind.
      match goal with
      | |- context [spinOnce (queued r) ?w0] =>
          destruct (spinOnce_same (queued r) w0) as (w1 & -> & _)
      end.
      intros Hw. destruct (IH w1 Hw) as [Hf Ht]. split; [done|].
      intros Hb [_ Hall]%Forall_cons. by apply Ht.
    + intros [= <- <-]. split; [done|].
      intros _ [Hr _]%Forall_cons. congruence.
  - intros [= <- <-]. split; [done|]. intros _ _. by apply Z.eqb_neq.
Qed.

(** X1: the constructor is left with the loop still waiting only while
    no state message has been stamped with a non-zero receipt time, and,
    if [ros::ok()] held at every check, the loop is left only once such a
    message has been received. *)
Theorem constructor_waits_for_state mode script (n : Ros) :
  ∃ b w, BaxterToCSV mode script n = Ok (b, w) ∧
    (b = false → state_msg_timestamp_ (this w) = 0%Z) ∧
    (b = true → Forall (λ r, ros_ok r = true) script →
     state_msg_timestamp_ (this w) ≠ 0%Z).
Proof.
  unfold BaxterToCSV, BaxterToCSV_body, subscribe. unfold_m.
  destruct mode; cbn;
    match goal with
    | |- context [wait_first_state script ?w0] =>
        destruct (wait_first_state_same script w0) as (b & w & Hw & _);
        rewrite Hw
    end;
    exists b, w; (split; [reflexivity|]);
    by apply wait_first_state_exit in Hw.
Qed.

Lemma spinOnce_no_arrival q (w : World) :
  (∀ t m, (t, InJointState m) ∈ q → t = 0%Z) →
  state_msg_timestamp_ (this w) = 0%Z →
  ∃ w', spinOnce q w = Ok (tt, w') ∧ state_msg_timestamp_ (this w') = 0%Z.
Proof.
  revert w. induction q as [|[t msg] q IH]; intros w Hq Hts.
  - by eexists.
  - cbn [spinOnce]. step_bind.
    assert (∃ w1, deliver t msg w = Ok (tt, w1) ∧
                  state_msg_timestamp_ (this w1) = 0%Z) as (w1 & -> & H1).
    { unfold deliver, subscribed, stateCallback, cmdPositionCallback,
        cmdVelocityCallback. unfold_m.
      destruct msg as [m|m|m]; cbn; destruct (bool_decide _); cbn;
        eexists; (split; [reflexivity|]); cbn; try done.
      apply (Hq t m), list_elem_of_here. }
    apply IH; [|done]. intros t' m' Hin. apply (Hq t' m').
    by apply list_elem_of_further.
Qed.

Lemma wait_first_state_keeps_waiting script (w : World) :
  Forall (λ r, ros_ok r = true ∧
               ∀ t m, (t, InJointState m) ∈ queued r → t = 0%Z) script →
  state_msg_timestamp_ (this w) = 0%Z →
  ∃ w', wait_first_state script w = Ok (false, w').
Proof.
  revert w. induction script as [|r script IH]; intros w Hall Hts;
    cbn [wait_first_state]; step_bind; cbn [member]; rewrite Hts; cbn.
  - by eexists.
  - apply Forall_cons in Hall as [[Hok Hq] Hall]. rewrite Hok.
    unfold_m. cbn.
    match goal with
    | |- context [spinOnce (queued r) ?w0] =>
        destruct (spinOnce_no_arrival (queued r) w0 Hq Hts) as (w1 & -> & H1)
    end.
    by apply IH.
Qed.

(** X2: while [ros::ok()] holds and every state message handed over is
    stamped with receipt time zero (none at all included), the
    constructor does not leave its waiting loop, however many rounds the
    node answers. *)
Theorem constructor_keeps_waiting mode script (n : Ros) :
  Forall (λ r, ros_ok r = true ∧
               ∀ t m, (t, InJointState m) ∈ queued r → t = 0%Z) script →
  ∃ w, BaxterToCSV mode script n = Ok (false, w).
Proof.
  intros Hall. unfold BaxterToCSV, BaxterToCSV_body, subscribe. unfold_m.
  destruct mode; cbn;
    match goal with
    | |- context [wait_first_state script ?w0] =>
        destruct (wait_first_state_keeps_waiting script w0 Hall eq_refl)
          as (w & ->)
    end; by eexists.
Qed.

(** ** Messages between ticks *)

(** X3: a run of message callbacks alone records nothing: the buffers,
    the file name, the timers, the files and the subscriptions are as
    before, whatever the messages. *)
Theorem messages_never_record evs (w : World) :
  Forall (λ ev, ∃ t msg, ev = Message t msg) evs →
  ∃ w', run evs w = Ok (tt, w') ∧ same_recording w w'.
Proof.
  revert w. induction evs as [|ev evs IH]; intros w Hall.
  - eexists. split; [reflexivity|apply same_recording_refl].
  - apply Forall_cons in Hall as [(t & msg & ->) Hall].
    cbn [run step]. step_bind.
    destruct (deliver_same t msg w) as (w1 & -> & H1).
    destruct (IH w1 Hall) as (w2 & -> & H2).
    eexists. split; [reflexivity|]. by eapply same_recording_trans.
Qed.

Lemma deliver_state t m (w : World) :
  CbStateCallback ∈ sub_callback <$> subscriptions (ros w) →
  deliver t (InJointState m) w =
  Ok (tt, mkWorld (set_state_msg_timestamp_ t (set_state_msg_ m (this w))) (ros w)).
Proof.
  intros Hsub. unfold deliver, subscribed, stateCallback. unfold_m. cbn.
  by rewrite bool_decide_eq_true_2.
Qed.

Lemma update_fresh_state now e (w : World) :
  (now ≤ state_msg_timestamp_ (this w) + fromSec STATE_EXPIRED_TIMEOUT)%Z →
  ∃ w', update now e w = Ok (tt, w') ∧
    joint_states_ (this w') = (joint_states_ (this w) ++ [state_msg_ (this w)])%list ∧
    state_msg_ (this w') = state_msg_ (this w) ∧
    state_msg_timestamp_ (this w') = state_msg_timestamp_ (this w) ∧
    files (ros w') = files (ros w).
Proof.
  intros Hfresh. rewrite update_eq. cbn zeta.
  assert ((now >? state_msg_timestamp_ (this w) + fromSec STATE_EXPIRED_TIMEOUT)%Z
          = false) as Hb by (rewrite Z.gtb_ltb; apply Z.ltb_ge; lia).
  destruct w as [r n]. cbn [this ros] in *.
  destruct (first_update_ r); cbn; rewrite Hb;
    (eexists; split; [reflexivity|]);
    unfold push_sample; cbn; by destruct (position_cmd_mode_ r).
Qed.

(** X4: of the state messages received between two ticks only the last
    is recorded: after two state messages and a tick at which the second
    is not stale, the state buffer has grown by the second message
    alone. *)
Theorem tick_records_latest_state t1 t2 m1 m2 now e (w : World) :
  CbStateCallback ∈ sub_callback <$> subscriptions (ros w) →
  timer_started (non_realtime_loop_ (this w)) (timers (ros w)) = true →
  (now ≤ t2 + fromSec STATE_EXPIRED_TIMEOUT)%Z →
  ∃ w', run [Message t1 (InJointState m1); Message t2 (InJointState m2);
             TimerFired now e] w = Ok (tt, w') ∧
        joint_states_ (this w') = (joint_states_ (this w) ++ [m2])%list.
Proof.
  intros Hsub Hon Hfresh. cbn [run step].
  step_bind. rewrite deliver_state by done.
  step_bind. rewrite deliver_state by done.
  step_bind. step_bind. cbn [member this ros]. step_bind. cbn [node this ros].
  cbn [non_realtime_loop_ set_state_msg_timestamp_ set_state_msg_].
  rewrite Hon.
  match goal with
  | |- context [update now e ?w0] =>
      destruct (update_fresh_state now e w0) as (w' & -> & Hj & _); [done|]
  end.
  exists w'. split; [reflexivity|]. by rewrite Hj.
Qed.

(** X5: two ticks with no state message in between, neither of them
    stale, record the same state message twice. *)
Theorem ticks_without_message_repeat now1 e1 now2 e2 (w : World) :
  (now1 ≤ state_msg_timestamp_ (this w) + fromSec STATE_EXPIRED_TIMEOUT)%Z →
  (now2 ≤ state_msg_timestamp_ (this w) + fromSec STATE_EXPIRED_TIMEOUT)%Z →
  ∃ w1 w2, update now1 e1 w = Ok (tt, w1) ∧ update now2 e2 w1 = Ok (tt, w2) ∧
    joint_states_ (this w2) =
      (joint_states_ (this w) ++ [state_msg_ (this w); state_msg_ (this w)])%list.
Proof.
  intros H1 H2.
  destruct (update_fresh_state now1 e1 w H1) as (w1 & Hu1 & Hj1 & Hm1 & Ht1 & _).
  destruct (update_fresh_state now2 e2 w1) as (w2 & Hu2 & Hj2 & _);
    [by rewrite Ht1|].
  exists w1, w2. split; [done|]. split; [done|].
  by rewrite Hj2, Hj1, Hm1, <- app_assoc.
Qed.

(** ** The aborting tick at its edges *)

(** X6: a stale tick on an empty state buffer stops the timer, writes no
    file, and leaves the stale state message as the only buffered
    sample. *)
Theorem update_stale_empty now e (w : World) :
  (now > state_msg_timestamp_ (this w) + fromSec STATE_EXPIRED_TIMEOUT)%Z →
  joint_states_ (this w) = [] →
  ∃ w', update now e w = Ok (tt, w') ∧
    files (ros w') = files (ros w) ∧
    timer_started (non_realtime_loop_ (this w')) (timers (ros w')) = false ∧
    joint_states_ (this w') = [state_msg_ (this w)].
Proof.
  intros Hstale He.
  assert ((now >? state_msg_timestamp_ (this w) + fromSec STATE_EXPIRED_TIMEOUT)%Z
          = true) as Hgt by (rewrite Z.gtb_ltb; apply Z.ltb_lt; lia).
  destruct w as [r n]. cbn [this ros] in *.
  rewrite update_eq. cbn [this ros].
  destruct (first_update_ r) eqn:Hfu; cbn -[stopRecording]; rewrite Hgt;
    rewrite stopRecording_eq, writeToFile_eq; cbn [this ros];
    cbn [joint_states_ set_first_update_]; rewrite He;
    (eexists; split; [reflexivity|]); cbn;
    (split; [done|]);
    unfold push_sample; cbn; destruct (position_cmd_mode_ r); cbn; rewrite He;
    (split; [apply timer_started_stop_timer|done]).
Qed.

Lemma writeToFile_out_of_range fn (w : World) :
  joint_states_ (this w) ≠ [] → in_bounds (this w) = false →
  writeToFile fn w = Undefined.
Proof.
  intros Hne Hb. rewrite writeToFile_eq.
  destruct (joint_states_ (this w)); [done|].
  destruct (rendered (this w)) as [txt|] eqn:Hr; [|done].
  rewrite rendered_in_bounds in Hb by (by rewrite Hr). done.
Qed.

(** X7: with a non-empty state buffer in which some array is shorter
    than the loop bound it is indexed under, [stopRecording] is
    undefined, and so is every stale tick of [update]: the abort path
    indexes out of range. *)
Theorem abort_out_of_range now e (w : World) :
  joint_states_ (this w) ≠ [] → in_bounds (this w) = false →
  stopRecording w = Undefined ∧
  ((now > state_msg_timestamp_ (this w) + fromSec STATE_EXPIRED_TIMEOUT)%Z →
   update now e w = Undefined).
Proof.
  intros Hne Hb. split.
  - rewrite stopRecording_eq. by rewrite writeToFile_out_of_range.
  - intros Hstale.
    assert ((now >? state_msg_timestamp_ (this w) + fromSec STATE_EXPIRED_TIMEOUT)%Z
            = true) as Hgt by (rewrite Z.gtb_ltb; apply Z.ltb_lt; lia).
    destruct w as [r n]. cbn [this ros] in *.
    rewrite update_eq. cbn [this ros].
    destruct (first_update_ r) eqn:Hfu; cbn -[stopRecording]; rewrite Hgt;
      rewrite stopRecording_eq; by rewrite writeToFile_out_of_range.
Qed.

(** ** Stopping *)

Lemma stop_timer_idem (h : option nat) (ts : list Timer) :
  stop_timer h (stop_timer h ts) = stop_timer h ts.
Proof.
  destruct h as [i|]; [|done]. cbn.
  destruct (ts !! i) as [t|] eqn:Hi; [|by rewrite Hi].
  rewrite list_lookup_insert_eq by (by eapply lookup_lt_Some). cbn.
  by rewrite list_insert_insert_eq.
Qed.

(** X8: a second [stopRecording] right after a first one that returned
    returns as well and changes neither the files nor the timers nor any
    member: the file is rewritten with the same table. *)
Theorem stopRecording_twice (w w1 : World) :
  stopRecording w = Ok (tt, w1) →
  ∃ w2, stopRecording w1 = Ok (tt, w2) ∧
    files (ros w2) = files (ros w1) ∧ timers (ros w2) = timers (ros w1) ∧
    this w2 = this w1.
Proof.
  rewrite !stopRecording_eq, !writeToFile_eq. cbn [this ros].
  destruct (joint_states_ (this w)) as [|s0 js] eqn:Hjs.
  - intros [= <-]. cbn [this ros]. rewrite Hjs.
    eexists. split; [reflexivity|]. cbn.
    by rewrite stop_timer_idem.
  - destruct (rendered (this w)) as [txt|] eqn:Hr; [|done].
    intros [= <-]. cbn [this ros]. rewrite Hjs, Hr.
    eexists. split; [reflexivity|]. cbn.
    rewrite stop_timer_idem. unfold stored.
    destruct (resolve _); by rewrite ?insert_insert_eq.
Qed.

Lemma stop_timer_none_started (h : option nat) (ts : list Timer) i t :
  (∀ j u, ts !! j = Some u → started u = true → h = Some j) →
  stop_timer h ts !! i = Some t → started t = false.
Proof.
  intros Hst Hi. destruct (started t) eqn:Ht; [|done].
  destruct h as [i0|]; cbn in Hi.
  - destruct (ts !! i0) as [t0|] eqn:H0.
    + destruct (decide (i0 = i)) as [->|Hne].
      * rewrite list_lookup_insert_eq in Hi by (by eapply lookup_lt_Some).
        injection Hi as <-. done.
      * rewrite list_lookup_insert_ne in Hi by done.
        specialize (Hst i t Hi Ht). congruence.
    + specialize (Hst i t Hi Ht). congruence.
  - by specialize (Hst i t Hi Ht).
Qed.

(** X9: when every started timer of the node is the one the recorder
    holds, whatever other timers the node has, no timer of the node is
    started after [stopRecording]. *)
Theorem stopRecording_stops_all (w w' : World) :
  (∀ i t, timers (ros w) !! i = Some t → started t = true →
          non_realtime_loop_ (this w) = Some i) →
  stopRecording w = Ok (tt, w') →
  Forall (λ t, started t = false) (timers (ros w')).
Proof.
  intros Hheld Hs. apply stopRecording_frame in Hs as (_ & _ & ->).
  apply Forall_lookup. intros i t Hi.
  by eapply stop_timer_none_started.
Qed.

(** ** Runs on messages that fit the robot *)

Lemma fits_in_bounds J (r : Recorder) : fits J r → in_bounds r = true.
Proof.
  intros (Hp & Hs & Hc & _). apply in_bounds_spec. split.
  - unfold header_in_bounds. destruct (joint_states_ r) as [|s0 js]; [done|].
    apply Forall_cons in Hs as [(_ & ? & _) _]. by apply Nat.leb_le.
  - intros i si c Hi Hci. apply row_in_bounds_spec.
    destruct (proj1 (Forall_lookup _ _) Hs i si Hi) as (? & _ & ? & ?).
    pose proof (proj1 (Forall_lookup _ _) Hc i c Hci). cbn in *.
    repeat split; lia.
Qed.

Lemma fits_push_sample J (r : Recorder) : fits J r → fits J (push_sample r).
Proof.
  intros (Hp & Hs & Hc & Hm & Ha).
  split; [by apply paired_push_sample|].
  unfold push_sample, active_cmds, active_cmd_msg in *. cbn.
  destruct (position_cmd_mode_ r) eqn:Hmode; cbn; rewrite Hmode;
    rewrite fmap_app; repeat split;
    try (apply Forall_app; split; [done|by apply Forall_singleton]);
    try apply Hm; done.
Qed.

Lemma stopRecording_returns (w : World) :
  paired (this w) → in_bounds (this w) = true →
  ∃ w', stopRecording w = Ok (tt, w') ∧ this w' = this w.
Proof.
  intros Hp Hb. rewrite stopRecording_eq, writeToFile_eq. cbn [this ros].
  destruct (joint_states_ (this w)) as [|s0 js] eqn:Hjs; [by eexists|].
  rewrite rendered_table; [by eexists| |done..]. by rewrite Hjs.
Qed.

Lemma update_returns now e (w : World) :
  paired (this w) → in_bounds (this w) = true →
  ∃ w' r1, update now e w = Ok (tt, w') ∧ this w' = push_sample r1 ∧
    (r1 = this w ∨ r1 = set_first_update_ false (this w)).
Proof.
  intros Hp Hb. rewrite update_eq. cbn zeta.
  destruct w as [r n]. cbn [this ros] in *.
  destruct (first_update_ r); cbn -[stopRecording];
    (destruct (_ >? _)%Z;
     [ match goal with
       | |- context [stopRecording ?w0] =>
           destruct (stopRecording_returns w0) as (w2 & -> & Ht); [done..|]
       end; cbn in Ht; rewrite Ht
     | ]);
    eexists _, _; (split; [reflexivity|]); cbn [this]; eauto.
Qed.

Lemma fits_step J (ev : Event) (w : World) :
  fits J (this w) → event_fits J ev →
  ∃ w', step ev w = Ok (tt, w') ∧ fits J (this w').
Proof.
  intros Hf Hev. destruct ev as [t msg|now e|fn|]; cbn [step].
  - unfold deliver, subscribed, stateCallback, cmdPositionCallback,
      cmdVelocityCallback. unfold_m.
    destruct Hf as (Hp & Hs & Hc & Hm & Ha).
    unfold fits, paired, active_cmds, active_cmd_msg in *.
    cbn in Hev.
    destruct msg as [m|m|m]; cbn; destruct (bool_decide _); cbn;
      (eexists; split; [reflexivity|]); cbn;
      destruct (position_cmd_mode_ (this w));
      refine (conj _ (conj _ (conj _ (conj _ _))));
      first [done | exact Hev | exact Hm | exact Ha].
  - step_bind. cbn [member]. step_bind. cbn [node].
    destruct (timer_started _ _); [|by eexists].
    destruct (update_returns now e w) as (w' & r1 & -> & Ht & Hr1);
      [apply Hf|by eapply fits_in_bounds|].
    exists w'. split; [done|]. rewrite Ht. apply fits_push_sample.
    by destruct Hr1 as [-> | ->].
  - rewrite startRecording_eq. eexists. split; [reflexivity|]. cbn.
    destruct Hf as (Hp & Hs & Hc & Hm & Ha).
    unfold fits, paired, active_cmds, active_cmd_msg in *. cbn.
    destruct (position_cmd_mode_ (this w));
      refine (conj _ (conj _ (conj _ (conj _ _))));
      first [done | exact Hm | exact Ha].
  - destruct (stopRecording_returns w) as (w' & -> & Ht);
      [apply Hf|by eapply fits_in_bounds|].
    exists w'. by rewrite Ht.
Qed.

(** X10: if everything the recorder holds fits a robot of [J] joints
    (state arrays covering at most [J] positions, commands of at least
    [J] values) and so does every message that arrives, no step of a run
    indexes out of range: the run returns, and its buffers are paired
    and within the bounds [writeToFile] needs. *)
Theorem run_in_range J evs (w : World) :
  fits J (this w) → Forall (event_fits J) evs →
  ∃ w', run evs w = Ok (tt, w') ∧ fits J (this w') ∧
        paired (this w') ∧ in_bounds (this w') = true.
Proof.
  revert w. induction evs as [|ev evs IH]; intros w Hf Hall.
  - exists w. split; [done|]. split; [done|]. split; [apply Hf|].
    by eapply fits_in_bounds.
  - apply Forall_cons in Hall as [Hev Hall]. cbn [run]. step_bind.
    destruct (fits_step J ev w Hf Hev) as (w1 & -> & H1).
    by apply IH.
Qed.

(** ** Samples and ticks *)

(** X13: a run buffers at most one state sample for each of its timer
    events, and none at any other event. *)
Theorem samples_bounded_by_ticks evs (w w' : World) :
  run evs w = Ok (tt, w') →
  length (joint_states_ (this w')) ≤
  length (joint_states_ (this w)) + count_ticks evs.
Proof.
  revert w. induction evs as [|ev evs IH]; intros w.
  - intros [= <-]. cbn. lia.
  - cbn [run]. step_bind.
    destruct (step ev w) as [[[] w1]|] eqn:Hs; [|done].
    intros Hr. specialize (IH w1 Hr).
    apply step_cases in Hs. destruct ev as [t msg|now e|fn|]; cbn [count_ticks].
    + destruct Hs as (_&_&_&Hj&_). rewrite Hj in IH. lia.
    + destruct Hs as [->|[_ Hu]]; [lia|].
      apply update_frame in Hu as (r1 & Hr1 & Ht & _).
      assert (length (joint_states_ (this w1)) = S (length (joint_states_ (this w))))
        as Hl.
      { rewrite Ht. destruct Hr1 as [-> | ->]; unfold push_sample; cbn;
          destruct (position_cmd_mode_ _); cbn; rewrite length_app; cbn; lia. }
      lia.
    + rewrite startRecording_eq in Hs. injection Hs as <-. cbn in IH. lia.
    + apply stopRecording_frame in Hs as (Ht & _). rewrite Ht in IH. lia.
Qed.

(** ** Files *)

Lemma writeToFile_other_files fn (w : World) b w' k' :
  writeToFile fn w = Ok (b, w') → resolve fn ≠ Some k' →
  files (ros w') !! k' = files (ros w) !! k'.
Proof.
  rewrite writeToFile_eq. intros Hw Hne.
  destruct (joint_states_ (this w)); [by injection Hw as <- <-|].
  destruct (rendered (this w)); [|done]. injection Hw as <- <-. cbn.
  unfold stored. destruct (resolve fn) as [k|]; [|done].
  rewrite lookup_insert_ne; [done|congruence].
Qed.

Lemma step_other_files (ev : Event) (w w' : World) k' :
  step ev w = Ok (tt, w') → resolve (file_name_ (this w)) ≠ Some k' →
  files (ros w') !! k' = files (ros w) !! k'.
Proof.
  intros Hs Hne. apply step_cases in Hs. destruct ev as [t msg|now e|fn|].
  - destruct Hs as (_&_&Hf&_). by rewrite Hf.
  - destruct Hs as [->|[_ Hu]]; [done|].
    rewrite update_eq in Hu. cbn zeta in Hu.
    destruct w as [r n]. cbn [this ros] in *.
    destruct (first_update_ r); cbn -[stopRecording] in Hu;
      (destruct (_ >? _)%Z;
       [ rewrite stopRecording_eq in Hu; cbn [this ros] in Hu;
         destruct (writeToFile _ _) as [[b w2]|] eqn:Hw; [|done];
         injection Hu as <-; cbn [this ros];
         by rewrite (writeToFile_other_files _ _ _ _ _ Hw)
       | by injection Hu as <- ]).
  - rewrite startRecording_eq in Hs. by injection Hs as <-.
  - rewrite stopRecording_eq in Hs.
    destruct (writeToFile _ _) as [[b w2]|] eqn:Hw; [|done].
    injection Hs as <-. by rewrite (writeToFile_other_files _ _ _ _ _ Hw).
Qed.

(** X12: in a recording session, from [startRecording fn] on and with no
    other [startRecording] in between, no file but the one the name [fn]
    resolves to is created or changed, whatever the ticks, aborts and
    stops; if [fn] cannot be opened, no file at all. *)
Theorem session_touches_one_file fn evs (w0 w : World) k' :
  Forall (λ ev, ∀ fn'', ev ≠ StartRecording fn'') evs →
  run (StartRecording fn :: evs) w0 = Ok (tt, w) →
  resolve fn ≠ Some k' →
  files (ros w) !! k' = files (ros w0) !! k'.
Proof.
  intros Hq Hrun Hne.
  cbn [run] in Hrun. revert Hrun. step_bind. cbn [step].
  rewrite startRecording_eq. intros Hrun.
  refine (proj2 (run_invariant
            (λ w1, file_name_ (this w1) = fn ∧
                   files (ros w1) !! k' = files (ros w0) !! k')
            _ _ evs _ w Hq _ Hrun)).
  - intros ev w1 w2 Hev [Hfn Hf] Hs. split.
    + by rewrite (file_name_step _ _ _ Hev Hs).
    + rewrite (step_other_files _ _ _ k' Hs); [done|by rewrite Hfn].
  - by split.
Qed.

(** ** The shape of the table *)

Lemma length_flat_map_const {A} (f : nat → list A) (k : nat) (idx : list nat) :
  (∀ j, length (f j) = k) → length (flat_map f idx) = k * length idx.
Proof.
  intros Hf. induction idx as [|j idx IH]; cbn; [lia|].
  rewrite length_app, Hf, IH. lia.
Qed.

Lemma Forall2_imap_l {A B} (R : B → A → Prop) (f : nat → A → B) (l : list A) :
  (∀ i x, R (f i x) x) → Forall2 R (imap f l) l.
Proof.
  revert f. induction l as [|x l IH]; intros f Hf; [constructor|].
  rewrite imap_cons. constructor; [done|]. apply IH. intros i y. apply Hf.
Qed.

(** X11: the lines of the table [writeToFile] streams follow each
    sample's own number of positions: the header has one field and four
    per position of the first sample, and the line of sample [i] has one
    field and four per position of sample [i], so that samples of
    different sizes give lines of different lengths. *)
Theorem table_field_counts fn (w : World) s0 js :
  joint_states_ (this w) = s0 :: js →
  paired (this w) → in_bounds (this w) = true →
  writeToFile fn w =
    Ok (true, mkWorld (this w)
                (written fn (cat (csv_line <$> csv_lines (this w))) (ros w))) ∧
  csv_lines (this w) !! 0 = Some (header_fields (position_cmd_mode_ (this w)) s0) ∧
  (∀ i si, joint_states_ (this w) !! i = Some si →
     csv_lines (this w) !! S i =
       Some (data_fields s0 si (active_cmds (this w) !!! i))) ∧
  Forall2 (λ l n, length l = 1 + 4 * n) (csv_lines (this w))
    (length (position s0) ::
     ((λ s, length (position s)) <$> joint_states_ (this w))).
Proof.
  intros Hjs Hp Hb. split.
  { apply writeToFile_in_bounds; [by rewrite Hjs|done..]. }
  unfold csv_lines. rewrite Hjs. split; [done|]. split.
  - intros i si Hi. cbn [lookup list_lookup].
    change (imap ?f (s0 :: js) !! i = ?x) with (imap f (s0 :: js) !! i = x).
    by rewrite list_lookup_imap, Hi.
  - constructor.
    + unfold header_fields. cbn [length].
      rewrite (length_flat_map_const _ 4) by done. by rewrite length_seq.
    + apply Forall2_fmap_r, Forall2_imap_l. intros i si.
      unfold data_fields. cbn [length].
      rewrite (length_flat_map_const _ 4) by done. by rewrite length_seq.
Qed.

(** ** What the aborting tick leaves behind *)

(** X14: after a stale tick has written the file and appended its
    sample, a [stopRecording] that follows writes the file again, now
    with the appended sample as last line: the table has one line more
    than the one the abort wrote.  The file is the one the recorder's
    file name resolves to, when it can be opened. *)
Theorem stop_after_abort now e k (w : World) :
  (now > state_msg_timestamp_ (this w) + fromSec STATE_EXPIRED_TIMEOUT)%Z →
  resolve (file_name_ (this w)) = Some k →
  first_update_ (this w) = false →
  joint_states_ (this w) ≠ [] → paired (this w) →
  in_bounds (this w) = true → in_bounds (push_sample (this w)) = true →
  ∃ w1 w2, update now e w = Ok (tt, w1) ∧
    files (ros w1) !! k = Some (csv_table (this w)) ∧
    stopRecording w1 = Ok (tt, w2) ∧
    files (ros w2) !! k = Some (csv_table (push_sample (this w))) ∧
    length (csv_lines (push_sample (this w))) =
      S (length (csv_lines (this w))).
Proof.
  intros Hstale Hk Hfu Hne Hp Hb Hb'.
  assert ((now >? state_msg_timestamp_ (this w) + fromSec STATE_EXPIRED_TIMEOUT)%Z
          = true) as Hgt by (rewrite Z.gtb_ltb; apply Z.ltb_lt; lia).
  assert (file_name_ (push_sample (this w)) = file_name_ (this w)) as Hfn
    by (unfold push_sample; cbn; by destruct (position_cmd_mode_ _)).
  assert (joint_states_ (push_sample (this w)) =
          (joint_states_ (this w) ++ [state_msg_ (this w)])%list) as Hjs
    by (unfold push_sample; cbn; by destruct (position_cmd_mode_ _)).
  destruct w as [r n]. cbn [this ros] in *.
  rewrite update_eq. cbn [this ros]. rewrite Hfu. cbn -[stopRecording].
  rewrite Hgt. rewrite stopRecording_in_bounds by done. cbn [this ros].
  eexists _, _. split; [reflexivity|]. cbn [this ros].
  split; [cbn; unfold stored; rewrite Hk; apply lookup_insert_eq|].
  rewrite stopRecording_in_bounds; cbn [this ros].
  - split; [reflexivity|]. cbn [this ros]. rewrite Hfn.
    split; [cbn; unfold stored; rewrite Hk; apply lookup_insert_eq|].
    unfold csv_lines. rewrite Hjs.
    destruct (joint_states_ r) as [|s0 js]; [done|]. cbn.
    rewrite !length_imap, length_app. cbn. lia.
  - rewrite Hjs. by destruct (joint_states_ r).
  - by apply paired_push_sample.
  - done.
Qed.

(** ** The first-update flag *)

Lemma spinOnce_first_update q (w : World) :
  ∃ w', spinOnce q w = Ok (tt, w') ∧
        first_update_ (this w') = first_update_ (this w).
Proof.
  revert w. induction q as [|[t msg] q IH]; intros w; [by eexists|].
  cbn [spinOnce]. step_bind.
  assert (∃ w1, deliver t msg w = Ok (tt, w1) ∧
                first_update_ (this w1) = first_update_ (this w))
    as (w1 & -> & H1).
  { unfold deliver, subscribed, stateCallback, cmdPositionCallback,
      cmdVelocityCallback. unfold_m.
    destruct msg as [m|m|m]; cbn; destruct (bool_decide _); cbn; by eexists. }
  destruct (IH w1) as (w2 & -> & H2). exists w2. split; [done|]. congruence.
Qed.

Lemma wait_first_state_first_update script (w : World) b w' :
  wait_first_state script w = Ok (b, w') →
  first_update_ (this w') = first_update_ (this w).
Proof.
  revert w. induction script as [|r script IH]; intros w; cbn [wait_first_state];
    step_bind; cbn [member];
    destruct (state_msg_timestamp_ (this w) =? 0)%Z;
    try (by intros [= <- <-]).
  destruct (ros_ok r); [|by intros [= <- <-]].
  step_bind. cbn [member]. step_bind. cbn [log node_do]. step_bind.
  match goal with
  | |- context [spinOnce (queued r) ?w0] =>
      destruct (spinOnce_first_update (queued r) w0) as (w1 & -> & H1)
  end.
  intros Hw. by rewrite (IH w1 Hw), H1.
Qed.

(** X15: in every run of a constructed recorder the first-update flag is
    false: the constructor clears it and nothing sets it, so [update]
    never takes the branch that skips the period log. *)
Theorem first_update_never_set mode script (n : Ros) b (w0 : World) evs
    (w : World) :
  BaxterToCSV mode script n = Ok (b, w0) → run evs w0 = Ok (tt, w) →
  first_update_ (this w) = false.
Proof.
  intros Hc Hrun.
  eapply (run_invariant (λ w1, first_update_ (this w1) = false) (λ _, True));
    [|by apply Forall_true| |exact Hrun].
  - intros ev w1 w2 _ Hf Hs. destruct ev as [t msg|now e|fn|]; cbn [step] in Hs.
    + revert Hs. unfold deliver, subscribed, stateCallback,
        cmdPositionCallback, cmdVelocityCallback. unfold_m.
      destruct msg as [m|m|m]; cbn; destruct (bool_decide _); cbn;
        by intros [= <-].
    + apply (step_cases (TimerFired now e)) in Hs.
      destruct Hs as [->|[_ Hu]]; [done|].
      apply update_frame in Hu as (r1 & [-> | ->] & -> & _);
        unfold push_sample; cbn; by destruct (position_cmd_mode_ _).
    + rewrite startRecording_eq in Hs. by injection Hs as <-.
    + apply stopRecording_frame in Hs as (-> & _). done.
  - revert Hc. unfold BaxterToCSV, BaxterToCSV_body, subscribe. unfold_m.
    destruct mode; cbn; intros Hw;
      by rewrite (wait_first_state_first_update _ _ _ _ Hw).
Qed.

(** ** A whole session on messages that fit *)

(** X16: if what the recorder holds and every message that arrives fit
    a robot of [J] joints, a session from [startRecording fn] to
    [stopRecording], with no other [startRecording] in between, returns
    at every step and ends with the table of all buffered samples in the
    file [fn] resolves to, when [fn] can be opened, and with the files
    untouched when [fn] cannot be opened or no sample was buffered. *)
Theorem session_writes_table J fn evs (w0 : World) :
  fits J (this w0) → Forall (event_fits J) evs →
  Forall (λ ev, ∀ fn', ev ≠ StartRecording fn') evs →
  ∃ w w', run (StartRecording fn :: evs) w0 = Ok (tt, w) ∧
    stopRecording w = Ok (tt, w') ∧
    (joint_states_ (this w) ≠ [] → ∀ k, resolve fn = Some k →
     files (ros w') = <[k := csv_table (this w)]> (files (ros w))) ∧
    (resolve fn = None → files (ros w') = files (ros w)) ∧
    (joint_states_ (this w) = [] → files (ros w') = files (ros w)).
Proof.
  intros Hf Hall Hq.
  destruct (run_in_range J (StartRecording fn :: evs) w0 Hf)
    as (w & Hrun & _ & Hp & Hb); [by constructor|].
  assert (file_name_ (this w) = fn) as Hfn.
  { pose proof Hrun as Hrun'. cbn [run] in Hrun'. revert Hrun'.
    step_bind. cbn [step]. rewrite startRecording_eq. intros Hrun'.
    eapply (run_invariant (λ w, file_name_ (this w) = fn));
      [|exact Hq| |exact Hrun'].
    - intros ev w1 w2 Hne H1 Hs. by rewrite (file_name_step _ _ _ Hne Hs).
    - done. }
  exists w. destruct (joint_states_ (this w)) as [|s0 js] eqn:Hjs.
  - rewrite stopRecording_eq, writeToFile_eq. cbn [this]. rewrite Hjs.
    eexists. split; [done|]. split; [reflexivity|]. by repeat split.
  - rewrite stopRecording_in_bounds; [|by rewrite Hjs|done..].
    eexists. split; [done|]. split; [reflexivity|]. cbn. rewrite Hfn.
    unfold stored. split; [by intros _ k ->|]. split; [by intros ->|done].
Qed.

End Properties.

(** * The theorems at the examples *)

Lemma update_stale_still_appends_witness :
  ∃ w', update 13 (mkTimerEvent 12 13) one_sample = Ok (tt, w') ∧
    timer_started (non_realtime_loop_ (this w')) (timers (ros w')) = false ∧
    files (ros w') =
      <["out.csv" := csv_table (this one_sample)]> (files (ros one_sample)) ∧
    joint_states_ (this w') =
      (joint_states_ (this one_sample) ++ [sample 10 5])%list ∧
    length (active_cmds (this w')) = 2%nat.
Proof.
  destruct (update_stale_still_appends 13 (mkTimerEvent 12 13) one_sample)
    as (w' & Hu & Ht & Hf & Hj & Hl).
  - vm_compute. reflexivity.
  - vm_compute. discriminate.
  - vm_compute. reflexivity.
  - vm_compute. reflexivity.
  - exists w'. repeat split; [exact Hu|exact Ht|exact Hf|exact Hj|exact Hl].
Defined.

Lemma stopRecording_no_sample_no_file :
  (∃ w', stopRecording idle = Ok (tt, w') ∧
         files (ros w') !! "out.csv" = None) ∧
  stopRecording no_command_yet = Undefined ∧
  (∃ w', stopRecording recording_unopenable = Ok (tt, w') ∧
         files (ros w') = ∅).
Proof.
  split; [eexists; split|split; [|eexists; split]]; vm_compute; reflexivity.
Qed.

Lemma stopRecording_writes_session_witness :
  ∃ w', stopRecording recording = Ok (tt, w') ∧
    timer_started (non_realtime_loop_ (this w')) (timers (ros w')) = false ∧
    files (ros w') = <["out.csv" := csv_table (this recording)]> (files (ros recording)) ∧
    this w' = this recording.
Proof.
  destruct (proj1 (stopRecording_writes_session "out.csv" session
                     (constructed true) recording
                     ltac:(repeat constructor; intros fn'; discriminate)
                     ltac:(vm_compute; reflexivity)))
    as (w' & Hs & Ht & Hf & _ & Hr).
  - vm_compute. discriminate.
  - vm_compute. reflexivity.
  - exists w'. repeat split; [exact Hs|exact Ht| |exact Hr].
    apply Hf. reflexivity.
Defined.

Lemma update_fresh_appends_witness :
  ∃ w', update 11 (mkTimerEvent 10 11) idle = Ok (tt, w') ∧
    joint_states_ (this w') = [sample 10 5].
Proof.
  destruct (update_fresh_appends 11 (mkTimerEvent 10 11) idle) as (w' & Hu & Hj & _).
  - vm_compute. discriminate.
  - exists w'. split; [exact Hu|exact Hj].
Defined.



Lemma sampling_timer_fixed_rate_witness :
  (∃ w' h, startRecording "out.csv" (constructed true) = Ok (tt, w') ∧
     non_realtime_loop_ (this w') = Some h ∧
     timers (ros w') !! h = Some (mkTimer 1 CbUpdate true) ∧
     length (timers (ros w')) = 1%nat) ∧
  timers_ok recording.
Proof.
  destruct (sampling_timer_fixed_rate "out.csv" (constructed true) true
              [mkSpinRound true [(10%Z, InJointState (sample 10 5))]] node0
              true (constructed true)
              (StartRecording "out.csv" :: session) recording) as [Ha Hb].
  split.
  - apply Ha. intros h. vm_compute. discriminate.
  - apply Hb; vm_compute; reflexivity.
Defined.

Lemma constructor_subscribes_witness :
  subscriptions (ros (constructed false)) =
    [mkSubscription "/robot/limb/left/joint_states" 1 CbStateCallback;
     mkSubscription "/robot/limb/left/command_joint_velocities" 1
       CbCmdVelocityCallback] ∧
  subscriptions (ros no_velocity_command_yet) =
    subscriptions (ros (constructed false)).
Proof.
  destruct (constructor_subscribes false
              [mkSpinRound true [(10%Z, InJointState (sample 10 5))]] node0)
    as (b & w & Hc & Hs & Hrun).
  assert (w = constructed false) as ->.
  { unfold constructed. rewrite Hc. reflexivity. }
  split; [exact Hs|].
  apply (Hrun [StartRecording "out.csv"; tick 11]).
  vm_compute. reflexivity.
Defined.

Lemma writeToFile_no_command_undefined :
  joint_states_ (this no_command_yet) ≠ [] ∧
  ¬ ∃ w', writeToFile "out.csv" no_command_yet = Ok (true, w').
Proof.
  split; [vm_compute; discriminate|].
  intros [w' H]. vm_compute in H. discriminate.
Qed.

Lemma writeToFile_result_witness :
  (∃ w', writeToFile "out.csv" idle = Ok (false, w') ∧
         this w' = this idle ∧ files (ros w') = files (ros idle) ∧
         timers (ros w') = timers (ros idle) ∧
         subscriptions (ros w') = subscriptions (ros idle)) ∧
  (∃ w', writeToFile "out.csv" recording = Ok (true, w')).
Proof.
  split.
  - apply (proj1 (writeToFile_result "out.csv" idle)).
    vm_compute. reflexivity.
  - apply (proj2 (writeToFile_result "out.csv" recording)).
    + vm_compute. discriminate.
    + vm_compute. reflexivity.
    + vm_compute. reflexivity.
Defined.

Lemma buffers_paired_witness :
  paired (this recording) ∧
  (∀ i si, joint_states_ (this recording) !! i = Some si →
           is_Some (active_cmds (this recording) !! i)).
Proof.
  destruct (buffers_paired "out.csv" session 13 (mkTimerEvent 12 13)
              (constructed true) recording recording) as (Hp & Hi & _).
  - vm_compute. reflexivity.
  - split; [exact Hp|exact Hi].
Defined.

Lemma stated_precondition_not_necessary :
  (∃ w', writeToFile "out.csv" short_names = Ok (true, w')) ∧
  ¬ stated_precondition (this short_names).
Proof.
  split.
  - eexists. vm_compute. reflexivity.
  - intros H. destruct (H 1%nat (nameless 11 6) eq_refl) as [Hn _].
    vm_compute in Hn. lia.
Qed.

Lemma writeToFile_defined_iff_witness :
  writeToFile "out.csv" recording ≠ Undefined ↔
  in_bounds (this recording) = true.
Proof.
  apply (writeToFile_defined_iff "out.csv" recording).
  vm_compute. reflexivity.
Defined.

(** * The further properties at the examples *)

Lemma fits_commanded : fits 1 (this commanded).
Proof.
  refine (conj _ (conj _ (conj _ (conj _ _)))).
  - vm_compute. reflexivity.
  - vm_compute. constructor.
  - vm_compute. constructor.
  - repeat split; vm_compute; lia.
  - vm_compute. lia.
Qed.

Lemma session_fits : Forall (event_fits 1) (session ++ [StopRecording; tick 13]).
Proof.
  repeat constructor; vm_compute; lia.
Qed.

Lemma constructor_waits_for_state_witness :
  state_msg_timestamp_ (this (constructed true)) ≠ 0%Z.
Proof.
  destruct (constructor_waits_for_state true first_state_script node0)
    as (b & w & Hc & _ & Ht).
  vm_compute in Hc. injection Hc as <- <-.
  apply Ht; [reflexivity|]. repeat constructor.
Defined.

Lemma constructor_keeps_waiting_witness :
  ∃ w, BaxterToCSV true silent_script node0 = Ok (false, w).
Proof.
  apply (constructor_keeps_waiting true silent_script node0).
  repeat constructor; cbn; intros t m Hin;
    apply list_elem_of_In in Hin; cbn in Hin;
    repeat (destruct Hin as [Hin|Hin]; try (by injection Hin as <- _);
            try discriminate);
    by destruct Hin.
Defined.

Lemma messages_never_record_witness :
  ∃ w', run [Message 11 (InJointState (sample 11 6));
             Message 12 (InJointPositions (command 8))] recording = Ok (tt, w') ∧
        same_recording recording w'.
Proof.
  apply (messages_never_record _ recording).
  repeat constructor; eexists _, _; reflexivity.
Defined.

Lemma tick_records_latest_state_witness :
  ∃ w', run [Message 11 (InJointState (sample 11 6));
             Message 12 (InJointState (sample 12 7));
             TimerFired 13 (mkTimerEvent 12 13)] idle = Ok (tt, w') ∧
        joint_states_ (this w') = (joint_states_ (this idle) ++ [sample 12 7])%list.
Proof.
  apply (tick_records_latest_state 11 12 (sample 11 6) (sample 12 7) 13
           (mkTimerEvent 12 13) idle).
  - vm_compute. constructor.
  - vm_compute. reflexivity.
  - vm_compute. discriminate.
Defined.

Lemma ticks_without_message_repeat_witness :
  ∃ w1 w2, update 11 (mkTimerEvent 10 11) idle = Ok (tt, w1) ∧
    update 12 (mkTimerEvent 11 12) w1 = Ok (tt, w2) ∧
    joint_states_ (this w2) =
      (joint_states_ (this idle) ++ [state_msg_ (this idle); state_msg_ (this idle)])%list.
Proof.
  apply (ticks_without_message_repeat 11 (mkTimerEvent 10 11) 12
           (mkTimerEvent 11 12) idle); vm_compute; discriminate.
Defined.

Lemma update_stale_empty_witness :
  ∃ w', update 13 (mkTimerEvent 12 13) idle = Ok (tt, w') ∧
    files (ros w') = files (ros idle) ∧
    timer_started (non_realtime_loop_ (this w')) (timers (ros w')) = false ∧
    joint_states_ (this w') = [state_msg_ (this idle)].
Proof.
  apply (update_stale_empty 13 (mkTimerEvent 12 13) idle);
    vm_compute; reflexivity.
Defined.

Lemma abort_out_of_range_witness :
  stopRecording no_command_yet = Undefined ∧
  update 13 (mkTimerEvent 12 13) no_command_yet = Undefined.
Proof.
  destruct (abort_out_of_range 13 (mkTimerEvent 12 13) no_command_yet)
    as [Hs Hu].
  - vm_compute. discriminate.
  - vm_compute. reflexivity.
  - split; [exact Hs|]. apply Hu. vm_compute. reflexivity.
Defined.

Lemma stopRecording_twice_witness :
  ∃ w2, stopRecording (after [StopRecording] recording) = Ok (tt, w2) ∧
    files (ros w2) = files (ros (after [StopRecording] recording)) ∧
    timers (ros w2) = timers (ros (after [StopRecording] recording)) ∧
    this w2 = this (after [StopRecording] recording).
Proof.
  apply (stopRecording_twice recording).
  vm_compute. reflexivity.
Defined.

Lemma stopRecording_stops_all_witness :
  Forall (λ t, started t = false)
    (timers (ros (after [StopRecording] recording_beside))) ∧
  length (timers (ros (after [StopRecording] recording_beside))) = 2%nat.
Proof.
  split; [|reflexivity].
  apply (stopRecording_stops_all recording_beside).
  - intros i t. destruct i as [|[|i]]; vm_compute; intros [= <-];
      (reflexivity || discriminate).
  - vm_compute. reflexivity.
Defined.

Lemma run_in_range_witness :
  ∃ w', run (StartRecording "out.csv" :: session ++ [StopRecording; tick 13])
          commanded = Ok (tt, w') ∧
        fits 1 (this w') ∧ paired (this w') ∧ in_bounds (this w') = true.
Proof.
  apply (run_in_range 1 _ commanded).
  - exact fits_commanded.
  - constructor; [exact I|exact session_fits].
Defined.

Lemma table_field_counts_witness :
  Forall2 (λ l n, length l = (1 + 4 * n)%nat) (csv_lines (this recording))
    [1; 1; 1]%nat.
Proof.
  destruct (table_field_counts "out.csv" recording (sample 10 5) [sample 11 6])
    as (_ & _ & _ & Hc).
  - vm_compute. reflexivity.
  - vm_compute. reflexivity.
  - vm_compute. reflexivity.
  - exact Hc.
Defined.

Lemma session_touches_one_file_witness :
  files (ros (after [StopRecording] recording_alias)) !! "other.csv" =
  files (ros (constructed true)) !! "other.csv".
Proof.
  apply (session_touches_one_file "./out.csv" (session ++ [StopRecording])
           (constructed true) (after [StopRecording] recording_alias)
           "other.csv").
  - repeat constructor; intros fn'; discriminate.
  - vm_compute. reflexivity.
  - vm_compute. discriminate.
Defined.

Lemma samples_bounded_by_ticks_witness :
  (length (joint_states_ (this recording)) ≤
   length (joint_states_ (this idle)) + count_ticks session)%nat.
Proof.
  apply (samples_bounded_by_ticks session idle recording).
  vm_compute. reflexivity.
Defined.

Lemma stop_after_abort_witness :
  ∃ w1 w2, update 13 (mkTimerEvent 12 13) one_sample = Ok (tt, w1) ∧
    files (ros w1) !! "out.csv" = Some (csv_table (this one_sample)) ∧
    stopRecording w1 = Ok (tt, w2) ∧
    files (ros w2) !! "out.csv" = Some (csv_table (push_sample (this one_sample))) ∧
    length (csv_lines (push_sample (this one_sample))) =
      S (length (csv_lines (this one_sample))).
Proof.
  apply (stop_after_abort 13 (mkTimerEvent 12 13) "out.csv" one_sample).
  - vm_compute. reflexivity.
  - vm_compute. reflexivity.
  - vm_compute. reflexivity.
  - vm_compute. discriminate.
  - vm_compute. reflexivity.
  - vm_compute. reflexivity.
  - vm_compute. reflexivity.
Defined.

Lemma first_update_never_set_witness :
  first_update_ (this recording) = false.
Proof.
  apply (first_update_never_set true first_state_script node0 true
           (constructed true) (StartRecording "out.csv" :: session) recording);
    vm_compute; reflexivity.
Defined.

Lemma session_writes_table_witness :
  ∃ w w', run (StartRecording "./out.csv" :: session) commanded = Ok (tt, w) ∧
    stopRecording w = Ok (tt, w') ∧
    (joint_states_ (this w) ≠ [] →
     files (ros w') = <["out.csv" := csv_table (this w)]> (files (ros w))).
Proof.
  destruct (session_writes_table 1 "./out.csv" session commanded)
    as (w & w' & Hr & Hs & Hf & _).
  - exact fits_commanded.
  - repeat constructor; vm_compute; lia.
  - repeat constructor; intros fn'; discriminate.
  - exists w, w'. repeat split; [exact Hr|exact Hs|].
    intros Hne. apply (Hf Hne). reflexivity.
Defined.
